(** * unrelease-cli: removing a version from the CLI release manifest

    A shallow embedding of [scripts/unrelease-cli.py].  The script reads
    [cli-releases.json], checks that the version named on the command line
    is a key of [releases], moves [latest] to the greatest remaining version
    when the removed one was the latest, deletes the entry, stamps
    [updated_at] and writes the document back.

    Python values are modelled as the interpreter has them after
    [json.load]: a dynamically typed tree whose objects are insertion-ordered
    dictionaries.  Exceptions, [sys.exit], the two output streams and the
    manifest file are explicit. *)

From Stdlib Require Import ZArith List String Ascii Bool Lia.
From Stdlib Require Import Permutation Sorted.
Import ListNotations.

(** ** Strings

    A Python [str] is modelled by a Rocq [string] holding its UTF-8 bytes.
    Equality, [split] at a dot, the substring test and concatenation are
    the same on the bytes as on the characters; [int] reads the characters
    ([code_points]), since it also accepts the decimal digits and the white
    space of Unicode. *)

Module PyStr.

(** [s.split(sep)] for a one-character separator: always at least one
    component. *)
Fixpoint split (sep : ascii) (s : string) : list string :=
  match s with
  | EmptyString => [EmptyString]
  | String c s' =>
      if Ascii.eqb c sep then EmptyString :: split sep s'
      else match split sep s' with
           | [] => [String c EmptyString]
           | w :: ws => String c w :: ws
           end
  end.

(** [needle in hay] on two strings: substring test. *)
Fixpoint contains (hay needle : string) : bool :=
  String.prefix needle hay
  || match hay with
     | EmptyString => false
     | String _ hay' => contains hay' needle
     end.

(** *** The characters of a string *)

Definition is_continuation (b : N) : bool := ((128 <=? b) && (b <? 192))%N.

(** What a byte starts: a character of its own, a sequence with [more]
    bytes to come for a character that is at least [least], or nothing a
    character can start with. *)
Inductive lead : Type :=
| Single (cp : N)
| Lead (more : nat) (bits : N) (least : N)
| Stray.

Definition classify (b : N) : lead :=
  (if b <? 128 then Single b
   else if b <? 192 then Stray
   else if b <? 224 then Lead 1 (b - 192) 128
   else if b <? 240 then Lead 2 (b - 224) 2048
   else if b <? 248 then Lead 3 (b - 240) 65536
   else Stray)%N.

(** Bytes that are not the UTF-8 form of a character stand for U+FFFD;
    the text of a [str] has none. *)
Definition replacement : N := 65533.

Definition checked (least cp : N) : N :=
  if ((least <=? cp) && (cp <=? 1114111))%N then cp else replacement.

(** UTF-8 decoding; [pending] bytes of the current character are still to
    come, [acc] holds its bits so far and [least] is the least character
    of its length. *)
Fixpoint decode (pending : nat) (acc least : N) (s : string) : list N :=
  match s with
  | EmptyString =>
      match pending with
      | O => []
      | S _ => [replacement]
      end
  | String c s' =>
      let b := N_of_ascii c in
      let start :=
        match classify b with
        | Single cp => cp :: decode 0 0 0 s'
        | Lead more bits least' => decode more bits least' s'
        | Stray => replacement :: decode 0 0 0 s'
        end in
      match pending with
      | O => start
      | S p =>
          if is_continuation b then
            match p with
            | O => checked least (acc * 64 + (b - 128))%N :: decode 0 0 0 s'
            | S _ => decode p (acc * 64 + (b - 128))%N least s'
            end
          else replacement :: start
      end
  end.

Definition code_points (s : string) : list N := decode 0 0 0 s.

Fixpoint is_ascii (s : string) : bool :=
  match s with
  | EmptyString => true
  | String c s' => (N_of_ascii c <? 128)%N && is_ascii s'
  end.

(** [str.isspace] of one character. *)
Definition is_unicode_space (cp : N) : bool :=
  ((9 <=? cp) && (cp <=? 13) || (28 <=? cp) && (cp <=? 32)
   || (cp =? 133) || (cp =? 160) || (cp =? 5760)
   || (8192 <=? cp) && (cp <=? 8202)
   || (cp =? 8232) || (cp =? 8233) || (cp =? 8239) || (cp =? 8287)
   || (cp =? 12288))%N.

(** The characters with the value zero in each run of ten decimal digits
    of Unicode 14.0, the version of CPython 3.11 (ASCII, Arabic-Indic,
    Devanagari, ..., full-width, ..., the mathematical digits, ...). *)
Definition decimal_zeros : list N :=
  [48; 1632; 1776; 1984; 2406; 2534; 2662; 2790; 2918; 3046; 3174; 3302;
   3430; 3558; 3664; 3792; 3872; 4160; 4240; 6112; 6160; 6470; 6608; 6784;
   6800; 6992; 7088; 7232; 7248; 42528; 43216; 43264; 43472; 43504; 43600;
   44016; 65296; 66720; 68912; 69734; 69872; 69942; 70096; 70384; 70736;
   70864; 71248; 71360; 71472; 71904; 72016; 72784; 73040; 73120; 92768;
   92864; 93008; 120782; 120792; 120802; 120812; 120822; 123200; 123632;
   125264; 130032]%N.

(** The decimal value of a character, if it is a decimal digit. *)
Definition to_decimal (cp : N) : option N :=
  match find (fun z => (z <=? cp) && (cp <=? z + 9))%N decimal_zeros with
  | Some z => Some (cp - z)%N
  | None => None
  end.

(** What [int] does to a string that is not ASCII before it parses it:
    the characters below 127 are kept, every other space becomes a blank
    and every other decimal digit its ASCII digit; the first character that
    is neither becomes a question mark and ends the text. *)
Fixpoint to_ascii (cps : list N) : string :=
  match cps with
  | [] => EmptyString
  | cp :: rest =>
      if (cp <? 127)%N then String (ascii_of_N cp) (to_ascii rest)
      else if is_unicode_space cp then String " "%char (to_ascii rest)
      else
        match to_decimal cp with
        | Some d => String (ascii_of_N (48 + d)) (to_ascii rest)
        | None => "?"%string
        end
  end.

(** *** The syntax of an integer, on ASCII *)

(** The C-locale spaces skipped around the number. *)
Definition is_space (c : ascii) : bool :=
  let n := N_of_ascii c in
  ((9 <=? n) && (n <=? 13) || (n =? 32))%N.

Definition digit_value (c : ascii) : option Z :=
  let n := N_of_ascii c in
  if ((48 <=? n) && (n <=? 57))%N then Some (Z.of_N (n - 48)) else None.

Fixpoint skip_spaces (s : string) : string :=
  match s with
  | String c s' => if is_space c then skip_spaces s' else s
  | EmptyString => EmptyString
  end.

(** Digits and single underscores between them.  Returns the value read,
    the number of digits and the unread rest; [None] on a doubled or
    trailing underscore. *)
Fixpoint scan_digits (prev_underscore : bool) (acc : Z) (digits : nat)
         (s : string) : option (Z * nat * string) :=
  match s with
  | EmptyString =>
      if prev_underscore then None else Some (acc, digits, EmptyString)
  | String c s' =>
      if Ascii.eqb c "_"%char then
        if prev_underscore then None else scan_digits true acc digits s'
      else
        match digit_value c with
        | Some d => scan_digits false (10 * acc + d) (S digits) s'
        | None => if prev_underscore then None else Some (acc, digits, s)
        end
  end.

Definition read_sign (s : string) : Z * string :=
  match s with
  | String "+"%char s' => (1, s')
  | String "-"%char s' => (-1, s')
  | _ => (1, s)
  end%Z.

Definition starts_with_underscore (s : string) : bool :=
  match s with
  | String c _ => Ascii.eqb c "_"%char
  | EmptyString => false
  end.

(** The base-ten integer that an ASCII text denotes; [None] stands for
    [ValueError].  [max_str_digits] is the interpreter's limit on the
    number of digits ([sys.get_int_max_str_digits()], 4300 by default, 0
    for no limit); it only applies above 640 digits. *)
Definition parse_int (max_str_digits : nat) (s : string) : option Z :=
  let (sign, body) := read_sign (skip_spaces s) in
  if starts_with_underscore body then None
  else
    match scan_digits false 0 0 body with
    | None => None
    | Some (v, digits, rest) =>
        if (digits =? 0)%nat then None
        else if ((640 <? digits) && (0 <? max_str_digits)
                 && (max_str_digits <? digits))%nat then None
        else
          match skip_spaces rest with
          | EmptyString => Some (sign * v)%Z
          | _ => None
          end
    end.

(** [int(s)]: an ASCII string is parsed as it is, any other after
    [to_ascii]. *)
Definition int (max_str_digits : nat) (s : string) : option Z :=
  if is_ascii s then parse_int max_str_digits s
  else parse_int max_str_digits (to_ascii (code_points s)).

End PyStr.

(** ** Tuples of integers and their order *)

(** [a < b] on tuples of integers: lexicographic, a proper prefix first. *)
Fixpoint tuple_ltb (a b : list Z) : bool :=
  match a, b with
  | [], [] => false
  | [], _ :: _ => true
  | _ :: _, [] => false
  | x :: a', y :: b' =>
      if (x <? y)%Z then true
      else if (y <? x)%Z then false
      else tuple_ltb a' b'
  end.

(** ** [list.sort(key=...)]

    The sort is stable and compares keys with [<] only.  Insertion from the
    right gives the one stable ascending arrangement: an element is put in
    front of the first element whose key is not smaller than its own. *)

Section Sort.
Variables (A K : Type) (key : A -> K) (ltb : K -> K -> bool).

Fixpoint insert_by_key (x : A) (l : list A) : list A :=
  match l with
  | [] => [x]
  | y :: l' =>
      if ltb (key y) (key x) then y :: insert_by_key x l'
      else x :: y :: l'
  end.

Definition sort_by_key (l : list A) : list A :=
  fold_right insert_by_key [] l.

(** [x] is not above [y]. *)
Definition key_le (x y : A) : Prop := ltb (key y) (key x) = false.

(** [x] compares equal to the key [k]. *)
Definition same_rank (k : K) (x : A) : bool :=
  negb (ltb (key x) k) && negb (ltb k (key x)).

(** [m] is the last of the greatest elements of [l]: nothing before it is
    greater, everything after it is smaller. *)
Definition last_greatest (l : list A) (m : A) : Prop :=
  exists l1 l2,
    l = l1 ++ m :: l2 /\
    (forall x, In x l1 -> key_le x m) /\
    (forall x, In x l2 -> ltb (key x) (key m) = true).
End Sort.

Arguments insert_by_key {A K} key ltb x l.
Arguments sort_by_key {A K} key ltb l.
Arguments key_le {A K} key ltb x y.
Arguments same_rank {A K} key ltb k x.
Arguments last_greatest {A K} key ltb l m.

(** ** The sort key of the script *)

Section VersionKey.
Variable max_str_digits : nat.

(** [tuple(int(x) for x in xs)]: the first failing component aborts. *)
Fixpoint ints (xs : list string) : option (list Z) :=
  match xs with
  | [] => Some []
  | x :: xs' =>
      match PyStr.int max_str_digits x with
      | None => None
      | Some n =>
          match ints xs' with
          | None => None
          | Some ns => Some (n :: ns)
          end
      end
  end.

Definition fallback_key : list Z := [0; 0; 0]%Z.

(** [version_key]: the [try] body, and [(0, 0, 0)] from the bare
    [except]. *)
Definition version_key (v : string) : list Z :=
  match ints (PyStr.split "."%char v) with
  | Some t => t
  | None => fallback_key
  end.
End VersionKey.

(** ** Dictionaries

    A [dict] keeps its keys in insertion order and holds each key once.  It
    is modelled by an association list read through its first binding of a
    key; deletion leaves no binding of the key behind. *)

Module PyDict.
Section Dict.
Variable V : Type.

Definition dict := list (string * V).

Fixpoint get (d : dict) (k : string) : option V :=
  match d with
  | [] => None
  | (k', v) :: d' => if String.eqb k' k then Some v else get d' k
  end.

Definition keys (d : dict) : list string := map fst d.

Definition mem (d : dict) (k : string) : bool :=
  existsb (String.eqb k) (keys d).

(** [d[k] = v]: in place when the key is there, at the end otherwise. *)
Fixpoint set (d : dict) (k : string) (v : V) : dict :=
  match d with
  | [] => [(k, v)]
  | (k', v') :: d' =>
      if String.eqb k' k then (k', v) :: d' else (k', v') :: set d' k v
  end.

(** [del d[k]], for a key that is there. *)
Definition del (d : dict) (k : string) : dict :=
  filter (fun kv => negb (String.eqb (fst kv) k)) d.
End Dict.

Arguments get {V} d k.
Arguments keys {V} d.
Arguments mem {V} d k.
Arguments set {V} d k v.
Arguments del {V} d k.
End PyDict.

(** ** Values produced by [json.load] *)

#[warnings="-register-all"]
Inductive json : Type :=
| JNull
| JBool (b : bool)
| JInt (n : Z)
| JFloat (bits : Z)  (* the binary64 pattern; only ever tested for truth *)
| JStr (s : string)
| JArr (xs : list json)
| JObj (kvs : list (string * json)).

Inductive exn : Type :=
| AttributeError
| TypeError
| KeyError
| ValueError
| FileNotFoundError
| UnicodeDecodeError
| UnicodeEncodeError
| JSONDecodeError.

(** The result of evaluating an expression: a value or a raised
    exception. *)
Inductive py (A : Type) : Type :=
| Val (a : A)
| Exc (e : exn).
Arguments Val {A} a.
Arguments Exc {A} e.

(** [x == s] for a string [s]: only an equal string is equal to it. *)
Definition py_eq_str (x : json) (s : string) : bool :=
  match x with
  | JStr t => String.eqb t s
  | _ => false
  end.

(** Truth value, as [or] tests it. *)
Definition truthy (x : json) : bool :=
  match x with
  | JNull => false
  | JBool b => b
  | JInt n => negb (n =? 0)%Z
  | JFloat bits => negb (Z.land bits (2 ^ 63 - 1) =? 0)%Z
  | JStr s => negb (String.eqb s EmptyString)
  | JArr xs => match xs with [] => false | _ => true end
  | JObj kvs => match kvs with [] => false | _ => true end
  end.

(** [x.get(k, default)]: only a dict has the method. *)
Definition py_get (x : json) (k : string) (default : json) : py json :=
  match x with
  | JObj d =>
      Val (match PyDict.get d k with Some v => v | None => default end)
  | _ => Exc AttributeError
  end.

(** [s in x] for a string [s]: key of a dict, element of a list, substring
    of a string; the other values are not containers. *)
Definition py_in (s : string) (x : json) : py bool :=
  match x with
  | JObj d => Val (PyDict.mem d s)
  | JArr xs => Val (existsb (fun y => py_eq_str y s) xs)
  | JStr t => Val (PyStr.contains t s)
  | _ => Exc TypeError
  end.

(** [x.keys()] *)
Definition py_keys (x : json) : py (list string) :=
  match x with
  | JObj d => Val (PyDict.keys d)
  | _ => Exc AttributeError
  end.

(** [x[k]] for a string [k] *)
Definition py_getitem (x : json) (k : string) : py json :=
  match x with
  | JObj d =>
      match PyDict.get d k with
      | Some v => Val v
      | None => Exc KeyError
      end
  | _ => Exc TypeError
  end.

(** [x[k] = v] for a string [k] *)
Definition py_setitem (x : json) (k : string) (v : json) : py json :=
  match x with
  | JObj d => Val (JObj (PyDict.set d k v))
  | _ => Exc TypeError
  end.

(** [del x[k]] for a string [k] *)
Definition py_delitem (x : json) (k : string) : py json :=
  match x with
  | JObj d =>
      if PyDict.mem d k then Val (JObj (PyDict.del d k)) else Exc KeyError
  | _ => Exc TypeError
  end.

(** ** The process: file, streams, exit

    The manifest file is modelled by what loading it gives, not by its
    bytes: [json.load] and [json.dump] are the passage between the two and
    are not unfolded.  Every [open] is recorded in the log, so a run that
    leaves the file alone is one with no [OpenWrite] in its log and the same
    [manifest] at the end.  A failing disk or a closed stream is outside the
    model. *)

Inductive file_state : Type :=
| Missing            (* no such file *)
| Undecodable        (* bytes that are not text in the encoding of [open] *)
| Malformed          (* text that is not a JSON document *)
| Oversized          (* JSON with an integer beyond the digit limit *)
| Document (j : json).

Inductive event : Type :=
| Stdout (line : string)
| Stderr (line : string)
| OpenRead (path : string)
| OpenWrite (path : string).

Record world : Type := World {
  manifest : file_state;      (* what [cli-releases.json] holds *)
  log : list event            (* what the process did, oldest first *)
}.

Inductive stop : Type :=
| SystemExit (code : Z)
| Uncaught (e : exn).

Inductive result (A : Type) : Type :=
| Ok (a : A)
| Halt (s : stop).
Arguments Ok {A} a.
Arguments Halt {A} s.

Definition prog (A : Type) : Type := world -> result A * world.

Definition ret {A} (a : A) : prog A := fun w => (Ok a, w).

Definition bind {A B} (c : prog A) (k : A -> prog B) : prog B :=
  fun w =>
    match c w with
    | (Ok a, w') => k a w'
    | (Halt s, w') => (Halt s, w')
    end.

Notation "x <- c ;; k" := (bind c (fun x => k))
  (at level 61, c at next level, right associativity).
Notation "c ;; k" := (bind c (fun _ => k))
  (at level 61, right associativity).

Definition emit (e : event) : prog unit :=
  fun w => (Ok tt, World (manifest w) (log w ++ [e])).

(** [print(line)] on a standard output whose encoding has every character
    (UTF-8), and [print(line, file=sys.stderr)]: the diagnostic stream
    escapes what it cannot encode and so takes every line. *)
Definition print (line : string) : prog unit := emit (Stdout line).
Definition eprint (line : string) : prog unit := emit (Stderr line).

(** [print(line)] on a standard output that encodes only the lines that
    [can_encode] accepts; the others raise. *)
Definition print_to (can_encode : string -> bool) (line : string)
  : prog unit :=
  if can_encode line then emit (Stdout line)
  else fun w => (Halt (Uncaught UnicodeEncodeError), w).

Definition sys_exit {A} (code : Z) : prog A :=
  fun w => (Halt (SystemExit code), w).

Definition eval {A} (r : py A) : prog A :=
  fun w =>
    match r with
    | Val a => (Ok a, w)
    | Exc e => (Halt (Uncaught e), w)
    end.

Definition manifest_path : string := "cli-releases.json".

(** [with open(path, 'r') as f: data = json.load(f)] *)
Definition load_manifest : prog json :=
  emit (OpenRead manifest_path) ;;
  fun w =>
    match manifest w with
    | Missing => (Halt (Uncaught FileNotFoundError), w)
    | Undecodable => (Halt (Uncaught UnicodeDecodeError), w)
    | Malformed => (Halt (Uncaught JSONDecodeError), w)
    | Oversized => (Halt (Uncaught ValueError), w)
    | Document j => (Ok j, w)
    end.

(** [with open(path, 'w') as f: json.dump(data, f, indent=2); f.write('\n')] *)
Definition store_manifest (data : json) : prog unit :=
  emit (OpenWrite manifest_path) ;;
  fun w => (Ok tt, World (Document data) (log w)).

(** The status the operating system sees. *)
Definition exit_status {A} (r : result A) : Z :=
  match r with
  | Ok _ => 0
  | Halt (SystemExit code) => code
  | Halt (Uncaught _) => 1
  end.

(** ** The script *)

Definition usage_line : string := "Usage: unrelease-cli.py <version>".

Definition not_found_line (v : string) : string :=
  "Error: Version " ++ v ++ " not found in cli-releases.json".

Definition updated_latest_line (v : string) : string :=
  "  Updated latest to " ++ v.

Definition warning_line : string := "  Warning: No other versions found".

Definition removed_line (v : string) : string :=
  "  Removed " ++ v ++ " from releases".

Definition done_line : string := "  ✓ Manifest updated".

(** [del data['releases'][v]]: the dict under [releases] is the very object
    that [data] holds, so the deletion shows in [data]. *)
Definition del_release (data : json) (v : string) : py json :=
  match py_getitem data "releases" with
  | Exc e => Exc e
  | Val releases =>
      match py_delitem releases v with
      | Exc e => Exc e
      | Val releases' => py_setitem data "releases" releases'
      end
  end.

Section Script.
(** The interpreter's digit limit for [int], see [PyStr.int]. *)
Variable max_str_digits : nat.

(** [[v for v in releases.keys() if v != version_to_remove]] *)
Definition others (ks : list string) (version_to_remove : string)
  : list string :=
  filter (fun v => negb (String.eqb v version_to_remove)) ks.

(** [remaining.sort(key=version_key)] *)
Definition sort_versions (remaining : list string) : list string :=
  sort_by_key (version_key max_str_digits) tuple_ltb remaining.

Section Stdout.
(** [print] on the standard output of the process. *)
Variable say : string -> prog unit.

(** The body of [if data.get('latest') == version_to_remove:]. *)
Definition update_latest_on (data : json) (version_to_remove : string)
  : prog json :=
  r <- eval (py_get data "releases" JNull) ;;
  let releases := if truthy r then r else JObj [] in
  ks <- eval (py_keys releases) ;;
  let remaining := others ks version_to_remove in
  match remaining with
  | _ :: _ =>
      let remaining := sort_versions remaining in
      let newest := last remaining EmptyString in
      data <- eval (py_setitem data "latest" (JStr newest)) ;;
      (* the line shows [data['latest']], just set to [newest] *)
      say (updated_latest_line newest) ;;
      ret data
  | [] =>
      say warning_line ;;
      ret data
  end.

(** [main]; [argv] is [sys.argv] (the script's name first) and [now] is
    the clock reading already formatted by
    [strftime('%Y-%m-%dT%H:%M:%SZ')]. *)
Definition main_on (argv : list string) (now : string) : prog unit :=
  if negb (List.length argv =? 2)%nat then
    eprint usage_line ;;
    sys_exit 1
  else
    let version_to_remove := nth 1 argv EmptyString in
    data <- load_manifest ;;
    releases <- eval (py_get data "releases" (JObj [])) ;;
    found <- eval (py_in version_to_remove releases) ;;
    if negb found then
      eprint (not_found_line version_to_remove) ;;
      sys_exit 1
    else
      latest <- eval (py_get data "latest" JNull) ;;
      data <- (if py_eq_str latest version_to_remove
               then update_latest_on data version_to_remove
               else ret data) ;;
      data <- eval (del_release data version_to_remove) ;;
      say (removed_line version_to_remove) ;;
      data <- eval (py_setitem data "updated_at" (JStr now)) ;;
      store_manifest data ;;
      say done_line.
End Stdout.

(** The script on a standard output that takes every line. *)
Definition update_latest : json -> string -> prog json :=
  update_latest_on print.

Definition main : list string -> string -> prog unit := main_on print.

(** A run of the script from a given state of the manifest file. *)
Definition run (argv : list string) (now : string) (f : file_state)
  : result unit * world :=
  main argv now (World f []).

(** A run on a standard output that encodes only what [can_encode]
    accepts. *)
Definition run_on (can_encode : string -> bool) (argv : list string)
           (now : string) (f : file_state) : result unit * world :=
  main_on (print_to can_encode) argv now (World f []).
End Script.

(** The document that a successful run writes: [d0] is the document after
    the [latest] step and [r] its [releases]; the entry is deleted, then the
    time is stamped. *)
Definition written (d0 r : PyDict.dict json) (version now : string)
  : PyDict.dict json :=
  PyDict.set (PyDict.set d0 "releases" (JObj (PyDict.del r version)))
             "updated_at" (JStr now).

(** ** The numeric tuple key, in the words of the specification

    The version is split at the dots and each component converted to an
    integer, which gives the tuple; when a component does not convert, the
    key is [(0, 0, 0)].  Stated on [str.split] and [int] alone, to be
    compared with [version_key]. *)

Inductive numeric_tuple_key (max_str_digits : nat) (v : string)
  : list Z -> Prop :=
| KeyConverts (t : list Z) :
    Forall2 (fun c n => PyStr.int max_str_digits c = Some n)
            (PyStr.split "." v) t ->
    numeric_tuple_key max_str_digits v t
| KeyFallback (c : string) :
    In c (PyStr.split "." v) ->
    PyStr.int max_str_digits c = None ->
    numeric_tuple_key max_str_digits v [0; 0; 0]%Z.

(** ** The invariant the manifest is meant to have

    In the words of the data model: [latest], if set, refers to a key
    present in [releases].  An absent or null [latest] is not set. *)

Definition latest_refers_to_release (data : json) : bool :=
  match data with
  | JObj d =>
      match PyDict.get d "latest" with
      | None | Some JNull => true
      | Some (JStr v) =>
          match PyDict.get d "releases" with
          | Some (JObj r) => PyDict.mem r v
          | _ => false
          end
      | Some _ => false
      end
  | _ => false
  end.

(** ** How a run can end

    By [sys.exit(1)], by an uncaught exception other than [KeyError], or
    normally; the last only for a two-element [argv] and a manifest whose
    [releases] is a dict holding the version. *)

Inductive ending (argv : list string) (f : file_state)
  : result unit -> Prop :=
| EndsExit : ending argv f (Halt (SystemExit 1))
| EndsRaise (e : exn) : e <> KeyError -> ending argv f (Halt (Uncaught e))
| EndsOk (script version : string) (d r : PyDict.dict json) :
    argv = [script; version] ->
    f = Document (JObj d) ->
    PyDict.get d "releases" = Some (JObj r) ->
    PyDict.mem r version = true ->
    ending argv f (Ok tt).

(** ** Manifests used as examples *)

Definition three_remaining : PyDict.dict json :=
  [("2.0.0", JObj []); ("1.0.0", JObj []); ("1.2.0", JObj []);
   ("1.1.5", JObj [])]%string.

Definition three_remaining_manifest : PyDict.dict json :=
  [("latest", JStr "2.0.0"); ("releases", JObj three_remaining);
   ("updated_at", JStr "2023-01-01T00:00:00Z")]%string.

Definition sole_manifest : PyDict.dict json :=
  [("latest", JStr "1.0.0"); ("releases", JObj [("1.0.0", JObj [])]);
   ("updated_at", JStr "2023-01-01T00:00:00Z")]%string.

Definition dangling_manifest : PyDict.dict json :=
  [("latest", JStr "9.9.9");
   ("releases", JObj [("1.0.0", JObj []); ("2.0.0", JObj [])]);
   ("updated_at", JStr "2023-01-01T00:00:00Z")]%string.





Definition tied_three_releases : PyDict.dict json :=
  [("0.0.0", JObj []); ("2.0.0", JObj []); ("abc", JObj []);
   ("0.0", JObj [])]%string.

Definition tied_three_manifest : PyDict.dict json :=
  [("latest", JStr "2.0.0"); ("releases", JObj tied_three_releases);
   ("updated_at", JStr "2023-01-01T00:00:00Z")]%string.

(** ** The whole outcome of a run

    Result, file and log together.  A run ends in one of four ways: the
    usage error, an uncaught exception before anything is written, the
    not-found error, or success, where the file is opened for writing once
    and the confirmation is the last line. *)

Inductive shape (argv : list string) (f : file_state)
  : result unit * world -> Prop :=
| ShapeUsage :
    List.length argv <> 2%nat ->
    shape argv f (Halt (SystemExit 1), World f [Stderr usage_line])
| ShapeRaise (e : exn) (out : list event) :
    List.length argv = 2%nat ->
    e <> KeyError ->
    out = [OpenRead manifest_path] \/
    out = [OpenRead manifest_path; Stdout warning_line] ->
    shape argv f (Halt (Uncaught e), World f out)
| ShapeNotFound :
    List.length argv = 2%nat ->
    shape argv f
          (Halt (SystemExit 1),
           World f [OpenRead manifest_path;
                    Stderr (not_found_line (nth 1 argv EmptyString))])
| ShapeOk (d' : PyDict.dict json) (mid : list event) :
    List.length argv = 2%nat ->
    mid = [] \/ mid = [Stdout warning_line] \/
    (exists v, mid = [Stdout (updated_latest_line v)]) ->
    shape argv f
          (Ok tt,
           World (Document (JObj d'))
                 (OpenRead manifest_path
                  :: mid ++ [Stdout (removed_line (nth 1 argv EmptyString));
                             OpenWrite manifest_path; Stdout done_line])).

(** ** Plain decimal components

    What [int] reads from a component made of decimal digits only. *)

Definition is_digit (c : ascii) : bool :=
  match PyStr.digit_value c with
  | Some _ => true
  | None => false
  end.

Fixpoint all_digits (s : string) : bool :=
  match s with
  | EmptyString => true
  | String c s' => is_digit c && all_digits s'
  end.

Fixpoint decimal_from (acc : Z) (s : string) : Z :=
  match s with
  | EmptyString => acc
  | String c s' =>
      decimal_from
        (10 * acc + match PyStr.digit_value c with Some d => d | None => 0 end)
        s'
  end.

(** The number a string of decimal digits denotes. *)
Definition decimal_value (s : string) : Z := decimal_from 0 s.

Fixpoint dot_free (s : string) : bool :=
  match s with
  | EmptyString => true
  | String c s' => negb (Ascii.eqb c "."%char) && dot_free s'
  end.

(** ** The time stamp

    [datetime.now(timezone.utc).strftime('%Y-%m-%dT%H:%M:%SZ')]: the clock
    reading is a [datetime]; [%Y] gives the year in four digits from the
    year 1000 on and the other fields are zero-padded to two digits. *)

Record datetime : Type := Datetime {
  year : N; month : N; day : N;
  hour : N; minute : N; second : N
}.

(** The values a [datetime] can hold, from the year 1000 on. *)
Definition datetime_ok (t : datetime) : Prop :=
  (1000 <= year t <= 9999 /\ 1 <= month t <= 12 /\ 1 <= day t <= 31 /\
   hour t < 24 /\ minute t < 60 /\ second t < 60)%N.

Definition digit_char (d : N) : ascii := ascii_of_N (48 + d).

Definition pad2 (n : N) : string :=
  String (digit_char (n / 10)) (String (digit_char (n mod 10)) EmptyString).

Definition pad4 (n : N) : string :=
  String (digit_char (n / 1000))
    (String (digit_char (n / 100 mod 10))
       (String (digit_char (n / 10 mod 10))
          (String (digit_char (n mod 10)) EmptyString))).

(** A string against a mask: [d] in the mask stands for any decimal digit,
    every other character for itself. *)
Fixpoint has_shape (mask s : string) : bool :=
  match mask, s with
  | EmptyString, EmptyString => true
  | String m mask', String c s' =>
      (if Ascii.eqb m "d"%char then is_digit c else Ascii.eqb c m)
      && has_shape mask' s'
  | _, _ => false
  end.

Definition strftime (t : datetime) : string :=
  pad4 (year t) ++ "-" ++ pad2 (month t) ++ "-" ++ pad2 (day t) ++ "T"
  ++ pad2 (hour t) ++ ":" ++ pad2 (minute t) ++ ":" ++ pad2 (second t)
  ++ "Z".

(** A run of the script when the clock reads [t]. *)
Definition run_at (max_str_digits : nat) (argv : list string)
           (t : datetime) (f : file_state) : result unit * world :=
  run max_str_digits argv (strftime t) f.

(** * Properties *)

(** ** The order on tuples *)

Lemma tuple_ltb_irrefl (a : list Z) : tuple_ltb a a = false.
Proof.
  induction a as [|x a IH]; simpl; [reflexivity|].
  now rewrite Z.ltb_irrefl.
Qed.

Lemma tuple_ltb_cons (x y : Z) (a b : list Z) :
  tuple_ltb (x :: a) (y :: b) = true <->
  (x < y)%Z \/ (x = y /\ tuple_ltb a b = true).
Proof.
  simpl.
  destruct (Z.ltb_spec x y); [intuition lia|].
  destruct (Z.ltb_spec y x); [intuition (discriminate || lia)|].
  intuition lia.
Qed.

Lemma tuple_ltb_trans (a b c : list Z) :
  tuple_ltb a b = true -> tuple_ltb b c = true -> tuple_ltb a c = true.
Proof.
  revert b c.
  induction a as [|x a IH]; intros [|y b] [|z c]; try (simpl; congruence).
  rewrite !tuple_ltb_cons.
  intros [Hxy | [-> Hab]] [Hyz | [-> Hbc]]; try (left; lia).
  right; split; [reflexivity | eauto].
Qed.

(** Being not smaller is transitive as well: the order is total. *)
Lemma tuple_ltb_ntrans (a b c : list Z) :
  tuple_ltb a b = false -> tuple_ltb b c = false -> tuple_ltb a c = false.
Proof.
  revert b c.
  induction a as [|x a IH]; intros [|y b] [|z c]; try (simpl; congruence).
  intros Hab Hbc.
  destruct (tuple_ltb (x :: a) (z :: c)) eqn:Hac; [exfalso | reflexivity].
  apply tuple_ltb_cons in Hac.
  assert (Hab' : ~ ((x < y)%Z \/ (x = y /\ tuple_ltb a b = true)))
    by (rewrite <- tuple_ltb_cons; congruence).
  assert (Hbc' : ~ ((y < z)%Z \/ (y = z /\ tuple_ltb b c = true)))
    by (rewrite <- tuple_ltb_cons; congruence).
  assert (x = y) by lia. subst y.
  assert (x = z) by lia. subst z.
  destruct Hac as [? | [_ Hac]]; [lia|].
  destruct (tuple_ltb a b) eqn:E1; [tauto|].
  destruct (tuple_ltb b c) eqn:E2; [tauto|].
  specialize (IH _ _ E1 E2). congruence.
Qed.

Lemma tuple_ltb_antisym (a b : list Z) :
  tuple_ltb a b = false -> tuple_ltb b a = false -> a = b.
Proof.
  revert b.
  induction a as [|x a IH]; intros [|y b]; try (simpl; congruence).
  simpl.
  destruct (Z.ltb_spec x y); [discriminate|].
  destruct (Z.ltb_spec y x); [discriminate|].
  intros Hab Hba. f_equal; [lia | auto].
Qed.

(** ** The sort *)

Section SortFacts.
Variables (A K : Type) (key : A -> K) (ltb : K -> K -> bool).

Hypothesis ltb_irrefl : forall a, ltb a a = false.
Hypothesis ltb_trans :
  forall a b c, ltb a b = true -> ltb b c = true -> ltb a c = true.
Hypothesis ltb_ntrans :
  forall a b c, ltb a b = false -> ltb b c = false -> ltb a c = false.

Lemma insert_perm (x : A) (l : list A) :
  Permutation (insert_by_key key ltb x l) (x :: l).
Proof.
  induction l as [|y l IH]; simpl; [reflexivity|].
  destruct (ltb (key y) (key x)); [|reflexivity].
  rewrite IH. apply perm_swap.
Qed.

Lemma sort_perm (l : list A) : Permutation (sort_by_key key ltb l) l.
Proof.
  induction l as [|x l IH]; simpl; [reflexivity|].
  rewrite insert_perm. now constructor.
Qed.

Lemma sort_in (l : list A) (x : A) : In x (sort_by_key key ltb l) <-> In x l.
Proof.
  split; apply Permutation_in; [|symmetry]; apply sort_perm.
Qed.

Lemma ltb_asym (a b : K) : ltb a b = true -> ltb b a = false.
Proof.
  intros Hab. destruct (ltb b a) eqn:Hba; [|reflexivity].
  rewrite <- (ltb_irrefl a). symmetry. eauto.
Qed.

Lemma insert_sorted (x : A) (l : list A) :
  StronglySorted (key_le key ltb) l ->
  StronglySorted (key_le key ltb) (insert_by_key key ltb x l).
Proof.
  induction 1 as [|y l Hl IH Hy]; simpl.
  - repeat constructor.
  - destruct (ltb (key y) (key x)) eqn:Hyx.
    + constructor; [assumption|].
      rewrite Forall_forall in *. intros z Hz.
      apply (Permutation_in _ (insert_perm x l)) in Hz.
      destruct Hz as [<- | Hz]; [now apply ltb_asym | auto].
    + constructor; [now constructor|].
      constructor; [exact Hyx|].
      rewrite Forall_forall in *. intros z Hz.
      unfold key_le in *. eauto.
Qed.

(** The result is ascending ... *)
Lemma sort_sorted (l : list A) :
  StronglySorted (key_le key ltb) (sort_by_key key ltb l).
Proof.
  induction l as [|x l IH]; simpl; [constructor | now apply insert_sorted].
Qed.

(** ... and elements that compare equal keep their order. *)
Lemma insert_stable (k : K) (x : A) (l : list A) :
  filter (same_rank key ltb k) (insert_by_key key ltb x l) =
  filter (same_rank key ltb k) (x :: l).
Proof.
  induction l as [|y l IH]; [reflexivity|].
  simpl insert_by_key.
  destruct (ltb (key y) (key x)) eqn:Hyx; [|reflexivity].
  change (filter (same_rank key ltb k) (y :: insert_by_key key ltb x l))
    with (if same_rank key ltb k y
          then y :: filter (same_rank key ltb k) (insert_by_key key ltb x l)
          else filter (same_rank key ltb k) (insert_by_key key ltb x l)).
  rewrite IH. simpl.
  destruct (same_rank key ltb k y) eqn:Hy; [|reflexivity].
  destruct (same_rank key ltb k x) eqn:Hx; [exfalso | reflexivity].
  unfold same_rank in Hx, Hy.
  apply andb_prop in Hx as [Hx1 Hx2], Hy as [Hy1 Hy2].
  apply negb_true_iff in Hx1, Hx2, Hy1, Hy2.
  pose proof (ltb_ntrans _ _ _ Hy1 Hx2). congruence.
Qed.

Lemma sort_stable (k : K) (l : list A) :
  filter (same_rank key ltb k) (sort_by_key key ltb l) =
  filter (same_rank key ltb k) l.
Proof.
  induction l as [|x l IH]; [reflexivity|].
  simpl sort_by_key. rewrite insert_stable. simpl. now rewrite IH.
Qed.

(** What ends up last. *)
Lemma last_insert (x d : A) (l : list A) :
  last (insert_by_key key ltb x l) d =
  if forallb (fun y => ltb (key y) (key x)) l then x else last l d.
Proof.
  induction l as [|y l IH]; [reflexivity|].
  simpl insert_by_key. simpl forallb.
  destruct (ltb (key y) (key x)) eqn:Hyx; [|reflexivity].
  simpl andb.
  assert (Hne : insert_by_key key ltb x l <> [])
    by (destruct l as [|z l']; simpl; [|destruct (ltb (key z) (key x))];
        intros Habs; discriminate Habs).
  change (last (y :: insert_by_key key ltb x l) d)
    with (match insert_by_key key ltb x l with
          | [] => y
          | _ :: _ => last (insert_by_key key ltb x l) d
          end).
  destruct (insert_by_key key ltb x l) eqn:E; [congruence|].
  rewrite IH.
  destruct l; [reflexivity|].
  destruct (forallb _ _); reflexivity.
Qed.

Lemma forallb_perm (p : A -> bool) (l l' : list A) :
  Permutation l l' -> forallb p l = forallb p l'.
Proof.
  induction 1; simpl; try congruence.
  now rewrite !andb_assoc, (andb_comm (p y)).
Qed.

Lemma last_sort (d : A) (l : list A) :
  l <> [] -> last_greatest key ltb l (last (sort_by_key key ltb l) d).
Proof.
  induction l as [|x l IH]; [congruence|]. intros _.
  simpl sort_by_key. rewrite last_insert.
  rewrite (forallb_perm _ _ _ (sort_perm l)).
  destruct (forallb _ l) eqn:Hall.
  - exists [], l. repeat split; [intros ? [] |].
    now apply forallb_forall.
  - assert (Hl : l <> []) by (intros ->; discriminate).
    destruct (IH Hl) as (l1 & l2 & El & H1 & H2).
    set (m := last (sort_by_key key ltb l) d) in *.
    exists (x :: l1), l2. split; [simpl; now rewrite <- El|].
    split; [|assumption].
    intros y [<- | Hy]; [|auto].
    unfold key_le.
    destruct (ltb (key m) (key x)) eqn:Hmx; [exfalso | reflexivity].
    assert (Hex : exists y, In y l /\ ltb (key y) (key x) = false).
    { clear -Hall. induction l as [|y l IHl]; [discriminate|].
      simpl in Hall. destruct (ltb (key y) (key x)) eqn:E.
      - destruct (IHl Hall) as (z & ? & ?). exists z. simpl. auto.
      - exists y. simpl. auto. }
    destruct Hex as (y & Hy & Hyx).
    rewrite El in Hy. apply in_app_or in Hy.
    destruct Hy as [Hy | [<- | Hy]].
    + apply H1 in Hy. unfold key_le in Hy.
      pose proof (ltb_ntrans _ _ _ Hy Hyx). congruence.
    + congruence.
    + apply H2 in Hy. pose proof (ltb_trans _ _ _ Hy Hmx). congruence.
Qed.

Lemma last_greatest_in (l : list A) (m : A) :
  last_greatest key ltb l m -> In m l.
Proof.
  intros (l1 & l2 & -> & _). apply in_or_app. simpl. auto.
Qed.

Lemma last_greatest_max (l : list A) (m x : A) :
  last_greatest key ltb l m -> In x l -> key_le key ltb x m.
Proof.
  intros (l1 & l2 & -> & H1 & H2) Hx.
  apply in_app_or in Hx. destruct Hx as [Hx | [<- | Hx]].
  - auto.
  - apply ltb_irrefl.
  - apply ltb_asym. auto.
Qed.
End SortFacts.

(** ** Dictionaries *)

Section DictFacts.
Variable V : Type.
Implicit Types (d : PyDict.dict V) (k : string) (v : V).

Lemma dict_mem_in d k : PyDict.mem d k = true <-> In k (PyDict.keys d).
Proof.
  unfold PyDict.mem. rewrite existsb_exists. split.
  - intros (k' & Hin & Heq). apply String.eqb_eq in Heq. now subst.
  - intros Hin. exists k. split; [assumption | apply String.eqb_refl].
Qed.

Lemma dict_mem_get d k : PyDict.mem d k = true <-> PyDict.get d k <> None.
Proof.
  rewrite dict_mem_in.
  induction d as [|[k' v'] d IH]; simpl; [tauto|].
  destruct (String.eqb_spec k' k); [intuition congruence|].
  rewrite <- IH. intuition congruence.
Qed.

Lemma dict_get_set_same d k v : PyDict.get (PyDict.set d k v) k = Some v.
Proof.
  induction d as [|[k' v'] d IH]; simpl.
  - now rewrite String.eqb_refl.
  - destruct (String.eqb k' k) eqn:E; simpl; now rewrite E.
Qed.

Lemma dict_get_set_other d k k' v :
  k' <> k -> PyDict.get (PyDict.set d k v) k' = PyDict.get d k'.
Proof.
  intros Hne. induction d as [|[k0 v0] d IH]; simpl.
  - destruct (String.eqb_spec k k'); congruence.
  - destruct (String.eqb_spec k0 k); simpl.
    + subst k0. destruct (String.eqb_spec k k'); congruence.
    + now rewrite IH.
Qed.

Lemma dict_keys_del d k : PyDict.keys (PyDict.del d k) = others (PyDict.keys d) k.
Proof.
  unfold others, PyDict.del, PyDict.keys.
  induction d as [|[k' v'] d IH]; simpl; [reflexivity|].
  destruct (String.eqb k' k); simpl; now rewrite IH.
Qed.

Lemma dict_get_del_same d k : PyDict.get (PyDict.del d k) k = None.
Proof.
  induction d as [|[k' v'] d IH]; simpl; [reflexivity|].
  destruct (String.eqb k' k) eqn:E; simpl; [assumption|].
  now rewrite E.
Qed.

Lemma dict_get_del_other d k k' :
  k' <> k -> PyDict.get (PyDict.del d k) k' = PyDict.get d k'.
Proof.
  intros Hne. induction d as [|[k0 v0] d IH]; simpl; [reflexivity|].
  destruct (String.eqb_spec k0 k); simpl.
  - subst k0. destruct (String.eqb_spec k k'); congruence.
  - now rewrite IH.
Qed.
End DictFacts.

Lemma others_in (ks : list string) (v k : string) :
  In k (others ks v) <-> In k ks /\ k <> v.
Proof.
  unfold others. rewrite filter_In, negb_true_iff, String.eqb_neq. tauto.
Qed.

Lemma others_nil (ks : list string) (v : string) :
  others ks v = [] <-> forall k, In k ks -> k = v.
Proof.
  split.
  - intros E k Hk. destruct (String.eqb_spec k v) as [|Hne]; [assumption|].
    assert (H : In k (others ks v)) by now apply others_in.
    rewrite E in H. destruct H.
  - intros H. destruct (others ks v) as [|k l] eqn:E; [reflexivity|].
    assert (Hk : In k (others ks v)) by (rewrite E; now left).
    apply others_in in Hk. destruct Hk as [Hk Hne]. now apply H in Hk.
Qed.

(** ** What a run does, case by case *)

Lemma del_release_dict (d0 r : PyDict.dict json) (version : string) :
  PyDict.get d0 "releases" = Some (JObj r) ->
  PyDict.mem r version = true ->
  del_release (JObj d0) version =
  Val (JObj (PyDict.set d0 "releases" (JObj (PyDict.del r version)))).
Proof.
  intros H Hm. unfold del_release. simpl. rewrite H. simpl. now rewrite Hm.
Qed.

Lemma py_eq_str_true (x : json) (v : string) :
  py_eq_str x v = true <-> x = JStr v.
Proof.
  destruct x; simpl; try (split; [discriminate | congruence]).
  rewrite String.eqb_eq. split; congruence.
Qed.

Section RunFacts.
Variable max_str_digits : nat.
Variables (script version now : string).
Variables d r : PyDict.dict json.

Hypothesis releases_dict : PyDict.get d "releases" = Some (JObj r).

Lemma run_not_found :
  PyDict.mem r version = false ->
  run max_str_digits [script; version] now (Document (JObj d)) =
  (Halt (SystemExit 1),
   World (Document (JObj d))
         [OpenRead manifest_path; Stderr (not_found_line version)]).
Proof.
  intros Hm. unfold run, main, main_on, bind. simpl. rewrite releases_dict. simpl.
  now rewrite Hm.
Qed.

Lemma run_keep_latest :
  PyDict.mem r version = true ->
  PyDict.get d "latest" <> Some (JStr version) ->
  run max_str_digits [script; version] now (Document (JObj d)) =
  (Ok tt,
   World (Document (JObj (written d r version now)))
         [OpenRead manifest_path; Stdout (removed_line version);
          OpenWrite manifest_path; Stdout done_line]).
Proof.
  intros Hm Hl. unfold run, main, main_on, bind. simpl. rewrite releases_dict. simpl.
  rewrite Hm. simpl.
  destruct (py_eq_str _ version) eqn:E.
  - apply py_eq_str_true in E.
    destruct (PyDict.get d "latest"); congruence.
  - simpl. now rewrite (del_release_dict _ _ _ releases_dict Hm).
Qed.

Lemma releases_truthy : PyDict.mem r version = true -> truthy (JObj r) = true.
Proof.
  destruct r; [discriminate | reflexivity].
Qed.

Lemma run_new_latest :
  PyDict.mem r version = true ->
  PyDict.get d "latest" = Some (JStr version) ->
  others (PyDict.keys r) version <> [] ->
  let newest :=
    last (sort_versions max_str_digits (others (PyDict.keys r) version))
         EmptyString in
  run max_str_digits [script; version] now (Document (JObj d)) =
  (Ok tt,
   World (Document
            (JObj (written (PyDict.set d "latest" (JStr newest))
                           r version now)))
         [OpenRead manifest_path; Stdout (updated_latest_line newest);
          Stdout (removed_line version);
          OpenWrite manifest_path; Stdout done_line]).
Proof.
  intros Hm Hl Hne newest. unfold run, main, main_on, bind. simpl.
  rewrite releases_dict. simpl. rewrite Hm, Hl. simpl.
  rewrite String.eqb_refl.
  unfold update_latest, update_latest_on, bind. simpl. rewrite releases_dict.
  rewrite (releases_truthy Hm). simpl.
  destruct (others (PyDict.keys r) version) as [|k ks] eqn:E; [congruence|].
  simpl. fold newest.
  rewrite (del_release_dict _ r version); [reflexivity | | assumption].
  rewrite dict_get_set_other; [assumption | discriminate].
Qed.

Lemma run_sole_version :
  PyDict.mem r version = true ->
  PyDict.get d "latest" = Some (JStr version) ->
  others (PyDict.keys r) version = [] ->
  run max_str_digits [script; version] now (Document (JObj d)) =
  (Ok tt,
   World (Document (JObj (written d r version now)))
         [OpenRead manifest_path; Stdout warning_line;
          Stdout (removed_line version);
          OpenWrite manifest_path; Stdout done_line]).
Proof.
  intros Hm Hl He. unfold run, main, main_on, bind. simpl.
  rewrite releases_dict. simpl. rewrite Hm, Hl. simpl.
  rewrite String.eqb_refl.
  unfold update_latest, update_latest_on, bind. simpl. rewrite releases_dict.
  rewrite (releases_truthy Hm). simpl. rewrite He. simpl.
  now rewrite (del_release_dict _ _ _ releases_dict Hm).
Qed.
End RunFacts.

Lemma run_no_releases (max_str_digits : nat) (script version now : string)
      (d : PyDict.dict json) :
  PyDict.get d "releases" = None ->
  run max_str_digits [script; version] now (Document (JObj d)) =
  (Halt (SystemExit 1),
   World (Document (JObj d))
         [OpenRead manifest_path; Stderr (not_found_line version)]).
Proof.
  intros H. unfold run, main, main_on, bind. simpl. now rewrite H.
Qed.

Lemma run_usage (max_str_digits : nat) (argv : list string) (now : string)
      (f : file_state) :
  List.length argv <> 2%nat ->
  run max_str_digits argv now f =
  (Halt (SystemExit 1), World f [Stderr usage_line]).
Proof.
  intros H. unfold run, main, main_on.
  destruct (Nat.eqb_spec (List.length argv) 2); [contradiction|].
  reflexivity.
Qed.

Lemma run_ending (max_str_digits : nat) (argv : list string) (now : string)
      (f : file_state) :
  ending argv f (fst (run max_str_digits argv now f)).
Proof.
  destruct (Nat.eq_dec (List.length argv) 2) as [Hlen|Hlen];
    [|rewrite run_usage by assumption; constructor].
  destruct argv as [|script [|version [|? ?]]]; try discriminate. clear Hlen.
  destruct f as [| | | |j];
    [unfold run, main, main_on, bind; simpl; constructor; discriminate ..|].
  destruct j as [| | | | | |d];
    [unfold run, main, main_on, bind; simpl; constructor; discriminate ..|].
  destruct (PyDict.get d "releases") as [rel|] eqn:Hrel;
    [|rewrite run_no_releases by assumption; constructor].
  destruct rel as [| | | |t|xs|r].
  1-4: unfold run, main, main_on, bind; simpl; rewrite Hrel; simpl;
       constructor; discriminate.
  - (* releases is a string *)
    unfold run, main, main_on, bind; simpl; rewrite Hrel; simpl.
    destruct (PyStr.contains t version); simpl; [|constructor].
    destruct (py_eq_str _ version); simpl.
    + unfold update_latest, update_latest_on, bind; simpl; rewrite Hrel; simpl.
      destruct t; simpl.
      * unfold del_release; simpl; rewrite Hrel; simpl.
        constructor; discriminate.
      * constructor; discriminate.
    + unfold del_release; simpl; rewrite Hrel; simpl.
      constructor; discriminate.
  - (* releases is a list *)
    unfold run, main, main_on, bind; simpl; rewrite Hrel; simpl.
    destruct (existsb _ xs) eqn:Hin; simpl; [|constructor].
    destruct (py_eq_str _ version); simpl.
    + unfold update_latest, update_latest_on, bind; simpl; rewrite Hrel; simpl.
      destruct xs; [discriminate|]. simpl.
      constructor; discriminate.
    + unfold del_release; simpl; rewrite Hrel; simpl.
      constructor; discriminate.
  - (* releases is a dict *)
    destruct (PyDict.mem r version) eqn:Hm;
      [|rewrite (run_not_found _ _ _ _ _ _ Hrel Hm); constructor].
    assert (Hok : fst (run max_str_digits [script; version] now
                           (Document (JObj d))) = Ok tt).
    { destruct (py_eq_str match PyDict.get d "latest" with
                          | Some x => x
                          | None => JNull
                          end version) eqn:E.
      - apply py_eq_str_true in E.
        assert (Hl : PyDict.get d "latest" = Some (JStr version))
          by (destruct (PyDict.get d "latest"); congruence).
        destruct (others (PyDict.keys r) version) as [|k ks] eqn:Ho.
        + now rewrite (run_sole_version _ _ _ _ _ _ Hrel Hm Hl Ho).
        + rewrite (run_new_latest _ _ _ _ _ _ Hrel Hm Hl); [reflexivity|].
          rewrite Ho. discriminate.
      - rewrite (run_keep_latest _ _ _ _ _ _ Hrel Hm); [reflexivity|].
        intros Hl. rewrite Hl in E. simpl in E.
        rewrite String.eqb_refl in E. discriminate. }
    rewrite Hok. now apply EndsOk with script version d r.
Qed.

Lemma written_latest (d0 r : PyDict.dict json) (version now : string) :
  PyDict.get (written d0 r version now) "latest" = PyDict.get d0 "latest".
Proof.
  unfold written. now rewrite !dict_get_set_other by discriminate.
Qed.

Lemma written_releases (d0 r : PyDict.dict json) (version now : string) :
  PyDict.get (written d0 r version now) "releases" =
  Some (JObj (PyDict.del r version)).
Proof.
  unfold written. rewrite dict_get_set_other by discriminate.
  apply dict_get_set_same.
Qed.

(** The new [latest] of a recompute is the last of the greatest remaining
    versions. *)
Lemma newest_last_greatest (max_str_digits : nat) (remaining : list string) :
  remaining <> [] ->
  last_greatest (version_key max_str_digits) tuple_ltb remaining
    (last (sort_versions max_str_digits remaining) EmptyString).
Proof.
  apply last_sort.
  - exact tuple_ltb_trans.
  - exact tuple_ltb_ntrans.
Qed.

Lemma split_not_nil (sep : ascii) (s : string) : PyStr.split sep s <> [].
Proof.
  destruct s as [|c s]; simpl; [discriminate|].
  destruct (Ascii.eqb c sep); [discriminate|].
  destruct (PyStr.split sep s); discriminate.
Qed.

(** [tuple(int(x) for x in xs)] gives a tuple exactly when every component
    converts, and fails exactly when one does not. *)
Lemma ints_converts (max_str_digits : nat) (cs : list string) (t : list Z) :
  ints max_str_digits cs = Some t <->
  Forall2 (fun c n => PyStr.int max_str_digits c = Some n) cs t.
Proof.
  revert t. induction cs as [|c cs IH]; intros t; simpl.
  - split.
    + intros H. injection H as <-. constructor.
    + intros H. inversion H. reflexivity.
  - destruct (PyStr.int max_str_digits c) as [n|] eqn:Hc.
    + destruct (ints max_str_digits cs) as [ns|] eqn:Hcs.
      * split.
        -- intros H. injection H as <-.
           constructor; [assumption | now apply IH].
        -- intros H. inversion H as [|? ? ? ? Hn Hrest]; subst.
           apply IH in Hrest. congruence.
      * split; [discriminate|].
        intros H. inversion H as [|? ? ? ? Hn Hrest]; subst.
        apply IH in Hrest. discriminate.
    + split; [discriminate|].
      intros H. inversion H; subst. congruence.
Qed.

Lemma ints_fails (max_str_digits : nat) (cs : list string) :
  ints max_str_digits cs = None <->
  exists c, In c cs /\ PyStr.int max_str_digits c = None.
Proof.
  induction cs as [|c cs IH]; simpl.
  - split; [discriminate | intros (c & [] & _)].
  - destruct (PyStr.int max_str_digits c) as [n|] eqn:Hc.
    + destruct (ints max_str_digits cs) as [ns|] eqn:Hcs.
      * split; [discriminate|].
        intros (c' & [<- | Hin] & Hc'); [congruence|].
        destruct IH as [_ IH].
        assert (Habs : Some ns = None) by (apply IH; now exists c').
        discriminate Habs.
      * split; [intros _|reflexivity].
        destruct IH as [IH _]. destruct (IH eq_refl) as (c' & Hin & Hc').
        exists c'. split; [now right | assumption].
    + split; [intros _|reflexivity]. exists c. split; [now left | assumption].
Qed.

(** [version_key] computes the key of the specification, which is
    unique. *)
Lemma version_key_spec (max_str_digits : nat) (v : string) :
  numeric_tuple_key max_str_digits v (version_key max_str_digits v).
Proof.
  unfold version_key.
  destruct (ints max_str_digits (PyStr.split "." v)) as [t|] eqn:E.
  - apply KeyConverts. now apply ints_converts.
  - apply ints_fails in E. destruct E as (c & Hin & Hc).
    now apply KeyFallback with c.
Qed.

Lemma numeric_tuple_key_unique (max_str_digits : nat) (v : string)
      (t : list Z) :
  numeric_tuple_key max_str_digits v t -> t = version_key max_str_digits v.
Proof.
  unfold version_key. intros [t' H | c Hin Hc].
  - apply ints_converts in H. now rewrite H.
  - assert (E : ints max_str_digits (PyStr.split "." v) = None)
      by (apply ints_fails; now exists c).
    now rewrite E.
Qed.

(** A split of a filtered list comes from a split of the list. *)
Lemma filter_split {A : Type} (p : A -> bool) (l b a : list A) (x : A) :
  filter p l = b ++ x :: a ->
  exists b0 a0, l = b0 ++ x :: a0 /\ filter p b0 = b /\ filter p a0 = a.
Proof.
  revert b. induction l as [|y l IH]; intros b; simpl.
  - destruct b; discriminate.
  - destruct (p y) eqn:Hy.
    + destruct b as [|y' b]; simpl; intros H; injection H as -> H.
      * exists [], l. simpl. auto.
      * destruct (IH _ H) as (b0 & a0 & -> & Hb & Ha).
        exists (y' :: b0), a0. simpl. rewrite Hy, Hb. auto.
    + intros H. destruct (IH _ H) as (b0 & a0 & -> & Hb & Ha).
      exists (y :: b0), a0. simpl. rewrite Hy. auto.
Qed.

(** The remaining keys of a recompute and the new [latest] among them. *)
Lemma remaining_not_nil (r : PyDict.dict json) (version : string) :
  (exists k, In k (PyDict.keys r) /\ k <> version) ->
  others (PyDict.keys r) version <> [].
Proof.
  intros (k & Hk & Hne) E.
  assert (H : In k (others (PyDict.keys r) version)) by now apply others_in.
  rewrite E in H. destruct H.
Qed.

(** C1.  When [latest] is the removed version and another key remains in
    [releases], the run succeeds and writes a [latest] that is a key of
    [releases] other than the removed one, still a key of the [releases]
    that is written, and whose numeric tuple key (the components between
    the dots as integers, [(0, 0, 0)] when one does not convert) no
    remaining key exceeds; when the remaining versions are 1.0.0, 1.2.0 and
    1.1.5, that is 1.2.0. *)
Theorem latest_recomputed_to_maximum
        (max_str_digits : nat) (script version now : string)
        (d r : PyDict.dict json) :
  PyDict.get d "latest" = Some (JStr version) ->
  PyDict.get d "releases" = Some (JObj r) ->
  In version (PyDict.keys r) ->
  (exists k, In k (PyDict.keys r) /\ k <> version) ->
  exists (newest : string) (d' r' : PyDict.dict json) (out : list event)
         (kn : list Z),
    run max_str_digits [script; version] now (Document (JObj d)) =
    (Ok tt, World (Document (JObj d')) out) /\
    PyDict.get d' "latest" = Some (JStr newest) /\
    PyDict.get d' "releases" = Some (JObj r') /\
    In newest (PyDict.keys r) /\ newest <> version /\
    In newest (PyDict.keys r') /\ ~ In version (PyDict.keys r') /\
    numeric_tuple_key max_str_digits newest kn /\
    (forall v kv, In v (PyDict.keys r) -> v <> version ->
                  numeric_tuple_key max_str_digits v kv ->
                  tuple_ltb kn kv = false) /\
    ((forall k, In k (PyDict.keys r) /\ k <> version <->
                In k ["1.0.0"; "1.2.0"; "1.1.5"]%string) ->
     newest = "1.2.0"%string).
Proof.
  intros Hl Hr Hin Hex.
  pose proof (remaining_not_nil r version Hex) as Hne.
  apply dict_mem_in in Hin.
  pose proof (newest_last_greatest max_str_digits _ Hne) as Hg.
  set (newest := last _ _) in Hg.
  assert (Hnew : In newest (others (PyDict.keys r) version))
    by (eapply last_greatest_in; exact Hg).
  assert (Hmax : forall v, In v (others (PyDict.keys r) version) ->
                tuple_ltb (version_key max_str_digits newest)
                          (version_key max_str_digits v) = false).
  { intros v Hv.
    eapply last_greatest_max;
      [exact tuple_ltb_irrefl | exact tuple_ltb_trans | exact Hg | exact Hv]. }
  exists newest. eexists. exists (PyDict.del r version). eexists.
  exists (version_key max_str_digits newest).
  split; [exact (run_new_latest _ script _ now _ _ Hr Hin Hl Hne)|].
  split; [rewrite written_latest; apply dict_get_set_same|].
  split; [apply written_releases|].
  split; [apply others_in in Hnew; tauto|].
  split; [apply others_in in Hnew; tauto|].
  split; [now rewrite dict_keys_del|].
  split; [rewrite dict_keys_del, others_in; tauto|].
  split; [apply version_key_spec|].
  split.
  { intros v kv Hv Hvne Hkv.
    rewrite (numeric_tuple_key_unique _ _ _ Hkv).
    apply Hmax. now apply others_in. }
  intros Hset.
  assert (Hn : In newest ["1.0.0"; "1.2.0"; "1.1.5"]%string)
    by (apply Hset; now apply others_in).
  assert (H120 : In "1.2.0"%string (others (PyDict.keys r) version))
    by (apply others_in; apply Hset; simpl; auto).
  apply Hmax in H120.
  destruct Hn as [<- | [<- | [<- | []]]];
    [exfalso | reflexivity | exfalso]; vm_compute in H120; discriminate.
Qed.

Lemma latest_recomputed_to_maximum_witness :
  exists (newest : string) (d' r' : PyDict.dict json) (out : list event)
         (kn : list Z),
    run 4300 ["unrelease-cli.py"; "2.0.0"]%string "2024-05-01T12:00:00Z"
        (Document (JObj three_remaining_manifest)) =
    (Ok tt, World (Document (JObj d')) out) /\
    PyDict.get d' "latest" = Some (JStr newest) /\
    PyDict.get d' "releases" = Some (JObj r') /\
    In newest (PyDict.keys three_remaining) /\ newest <> "2.0.0"%string /\
    In newest (PyDict.keys r') /\ ~ In "2.0.0"%string (PyDict.keys r') /\
    numeric_tuple_key 4300 newest kn /\
    (forall v kv, In v (PyDict.keys three_remaining) ->
                  v <> "2.0.0"%string ->
                  numeric_tuple_key 4300 v kv ->
                  tuple_ltb kn kv = false) /\
    ((forall k, In k (PyDict.keys three_remaining) /\ k <> "2.0.0"%string <->
                In k ["1.0.0"; "1.2.0"; "1.1.5"]%string) ->
     newest = "1.2.0"%string).
Proof.
  apply (latest_recomputed_to_maximum 4300 "unrelease-cli.py" "2.0.0"
           "2024-05-01T12:00:00Z" three_remaining_manifest three_remaining).
  - reflexivity.
  - reflexivity.
  - simpl. auto.
  - exists "1.0.0"%string. split; [simpl; auto | discriminate].
Defined.

Lemma del_nil_of_others_nil (r : PyDict.dict json) (version : string) :
  others (PyDict.keys r) version = [] -> PyDict.del r version = [].
Proof.
  rewrite <- dict_keys_del. unfold PyDict.keys.
  destruct (PyDict.del r version); [reflexivity | discriminate].
Qed.

Lemma mem_del_other (r : PyDict.dict json) (version k : string) :
  In k (PyDict.keys r) -> k <> version ->
  PyDict.mem (PyDict.del r version) k = true.
Proof.
  intros Hk Hne. apply dict_mem_in. rewrite dict_keys_del.
  now apply others_in.
Qed.

(** C2 as stated fails.  Removing the only version, which is also
    [latest], succeeds and leaves [latest] naming a key that is gone; and a
    [latest] that named no key before the run names none after it. *)
Lemma latest_refers_to_release_counterexample :
  (let end_ := run 4300 ["unrelease-cli.py"; "1.0.0"]%string
                   "2024-05-01T12:00:00Z" (Document (JObj sole_manifest)) in
   exit_status (fst end_) = 0%Z /\
   manifest (snd end_) =
   Document (JObj [("latest", JStr "1.0.0"); ("releases", JObj []);
                   ("updated_at", JStr "2024-05-01T12:00:00Z")]%string) /\
   latest_refers_to_release
     (JObj [("latest", JStr "1.0.0"); ("releases", JObj []);
            ("updated_at", JStr "2024-05-01T12:00:00Z")]%string) = false) /\
  (let end_ := run 4300 ["unrelease-cli.py"; "1.0.0"]%string
                   "2024-05-01T12:00:00Z"
                   (Document (JObj dangling_manifest)) in
   exit_status (fst end_) = 0%Z /\
   manifest (snd end_) =
   Document (JObj [("latest", JStr "9.9.9");
                   ("releases", JObj [("2.0.0", JObj [])]);
                   ("updated_at", JStr "2024-05-01T12:00:00Z")]%string) /\
   latest_refers_to_release
     (JObj [("latest", JStr "9.9.9");
            ("releases", JObj [("2.0.0", JObj [])]);
            ("updated_at", JStr "2024-05-01T12:00:00Z")]%string) = false).
Proof.
  split; vm_compute; repeat split; reflexivity.
Qed.

(** C2, amended.  If [latest], when set, names a key of [releases] before
    a successful run, then it does so afterwards, except when the removed
    version was [latest] and the only key: then [latest] still names it and
    [releases] is empty. *)
Theorem latest_refers_to_release_preserved
        (max_str_digits : nat) (argv : list string) (now : string)
        (f : file_state) (res : result unit) (w' : world) :
  run max_str_digits argv now f = (res, w') ->
  exit_status res = 0%Z ->
  (forall j, f = Document j -> latest_refers_to_release j = true) ->
  exists d' : PyDict.dict json,
    manifest w' = Document (JObj d') /\
    (latest_refers_to_release (JObj d') = true \/
     exists (version : string) (d r : PyDict.dict json),
       nth 1 argv EmptyString = version /\
       f = Document (JObj d) /\
       PyDict.get d "latest" = Some (JStr version) /\
       PyDict.get d "releases" = Some (JObj r) /\
       (forall k, In k (PyDict.keys r) -> k = version) /\
       PyDict.get d' "latest" = Some (JStr version) /\
       PyDict.get d' "releases" = Some (JObj [])).
Proof.
  intros Hrun Hexit Hpre.
  pose proof (run_ending max_str_digits argv now f) as He.
  rewrite Hrun in He. simpl in He.
  destruct He as [|e _|script version d r -> -> Hrel Hm];
    [discriminate Hexit | discriminate Hexit |].
  specialize (Hpre _ eq_refl). simpl in Hpre. rewrite Hrel in Hpre.
  destruct (PyDict.get d "latest") as [lat|] eqn:Hl.
  - destruct lat as [| | | |s| |]; try discriminate Hpre.
    + (* null *)
      rewrite (run_keep_latest _ _ _ _ _ _ Hrel Hm) in Hrun
        by (rewrite Hl; discriminate).
      injection Hrun as <-. eexists. split; [reflexivity|]. left.
      simpl. now rewrite written_latest, Hl.
    + destruct (String.eqb_spec s version) as [->|Hne].
      * destruct (others (PyDict.keys r) version) as [|k ks] eqn:Ho.
        -- rewrite (run_sole_version _ _ _ _ _ _ Hrel Hm Hl Ho) in Hrun.
           injection Hrun as <-. eexists. split; [reflexivity|]. right.
           exists version, d, r. repeat split; try assumption.
           ++ now apply others_nil.
           ++ now rewrite written_latest.
           ++ rewrite written_releases.
              now rewrite (del_nil_of_others_nil _ _ Ho).
        -- assert (Hne : others (PyDict.keys r) version <> [])
             by (rewrite Ho; discriminate).
           rewrite (run_new_latest _ _ _ _ _ _ Hrel Hm Hl Hne) in Hrun.
           injection Hrun as <-. eexists. split; [reflexivity|]. left.
           simpl. rewrite written_latest, dict_get_set_same.
           rewrite written_releases.
           apply dict_mem_in. rewrite dict_keys_del.
           eapply last_greatest_in.
           exact (newest_last_greatest max_str_digits _ Hne).
      * rewrite (run_keep_latest _ _ _ _ _ _ Hrel Hm) in Hrun
          by (rewrite Hl; congruence).
        injection Hrun as <-. eexists. split; [reflexivity|]. left.
        simpl. rewrite written_latest, Hl, written_releases.
        apply mem_del_other; [now apply dict_mem_in | assumption].
  - rewrite (run_keep_latest _ _ _ _ _ _ Hrel Hm) in Hrun
      by (rewrite Hl; discriminate).
    injection Hrun as <-. eexists. split; [reflexivity|]. left.
    simpl. now rewrite written_latest, Hl.
Qed.

Lemma latest_refers_to_release_preserved_witness :
  exists d' : PyDict.dict json,
    manifest (snd (run 4300 ["unrelease-cli.py"; "2.0.0"]%string
                       "2024-05-01T12:00:00Z"
                       (Document (JObj three_remaining_manifest)))) =
    Document (JObj d') /\
    (latest_refers_to_release (JObj d') = true \/
     exists (version : string) (d r : PyDict.dict json),
       nth 1 ["unrelease-cli.py"; "2.0.0"]%string EmptyString = version /\
       Document (JObj three_remaining_manifest) = Document (JObj d) /\
       PyDict.get d "latest" = Some (JStr version) /\
       PyDict.get d "releases" = Some (JObj r) /\
       (forall k, In k (PyDict.keys r) -> k = version) /\
       PyDict.get d' "latest" = Some (JStr version) /\
       PyDict.get d' "releases" = Some (JObj [])).
Proof.
  apply (latest_refers_to_release_preserved
           4300 ["unrelease-cli.py"; "2.0.0"]%string "2024-05-01T12:00:00Z"
           (Document (JObj three_remaining_manifest)) (Ok tt)).
  - vm_compute. reflexivity.
  - reflexivity.
  - intros j Hj. injection Hj as <-. reflexivity.
Defined.

(** C3.  When the version is not a key of [releases] (or [releases] is
    missing), the run prints the error on the diagnostic stream, exits with
    status 1 and leaves the file as it was: it is opened for reading only. *)
Theorem not_found_exits_without_writing
        (max_str_digits : nat) (script version now : string)
        (d : PyDict.dict json) :
  (PyDict.get d "releases" = None \/
   exists r, PyDict.get d "releases" = Some (JObj r) /\
             ~ In version (PyDict.keys r)) ->
  let end_ := run max_str_digits [script; version] now (Document (JObj d)) in
  fst end_ = Halt (SystemExit 1) /\
  exit_status (fst end_) = 1%Z /\
  manifest (snd end_) = Document (JObj d) /\
  log (snd end_) = [OpenRead manifest_path; Stderr (not_found_line version)] /\
  (forall path, ~ In (OpenWrite path) (log (snd end_))).
Proof.
  intros H end_.
  assert (E : end_ =
              (Halt (SystemExit 1),
               World (Document (JObj d))
                     [OpenRead manifest_path;
                      Stderr (not_found_line version)])).
  { destruct H as [H | (r & Hr & Hn)].
    - now apply run_no_releases.
    - apply run_not_found with r; [assumption|].
      destruct (PyDict.mem r version) eqn:Hm; [|reflexivity].
      apply dict_mem_in in Hm. contradiction. }
  rewrite E. simpl. repeat split.
  intros path [Hp | [Hp | []]]; discriminate Hp.
Qed.

Lemma not_found_exits_without_writing_witness :
  let end_ := run 4300 ["unrelease-cli.py"; "3.0.0"]%string
                  "2024-05-01T12:00:00Z"
                  (Document (JObj three_remaining_manifest)) in
  fst end_ = Halt (SystemExit 1) /\
  exit_status (fst end_) = 1%Z /\
  manifest (snd end_) = Document (JObj three_remaining_manifest) /\
  log (snd end_) =
  [OpenRead manifest_path; Stderr (not_found_line "3.0.0")] /\
  (forall path, ~ In (OpenWrite path) (log (snd end_))).
Proof.
  apply (not_found_exits_without_writing
           4300 "unrelease-cli.py" "3.0.0" "2024-05-01T12:00:00Z"
           three_remaining_manifest).
  right. exists three_remaining. split; [reflexivity|].
  simpl. intros [H | [H | [H | [H | []]]]]; discriminate H.
Defined.

(** C4.  When the version is a key of [releases] and is not [latest], the
    run succeeds; in the manifest it writes, [releases] has lost that key,
    keeps every other key with its metadata (and in the same order), and
    [latest] is as it was. *)
Theorem removal_keeps_other_releases_and_latest
        (max_str_digits : nat) (script version now : string)
        (d r : PyDict.dict json) :
  PyDict.get d "releases" = Some (JObj r) ->
  In version (PyDict.keys r) ->
  PyDict.get d "latest" <> Some (JStr version) ->
  exists (d' r' : PyDict.dict json) (out : list event),
    run max_str_digits [script; version] now (Document (JObj d)) =
    (Ok tt, World (Document (JObj d')) out) /\
    PyDict.get d' "releases" = Some (JObj r') /\
    ~ In version (PyDict.keys r') /\
    PyDict.get r' version = None /\
    (forall k, k <> version -> PyDict.get r' k = PyDict.get r k) /\
    PyDict.keys r' = others (PyDict.keys r) version /\
    PyDict.get d' "latest" = PyDict.get d "latest".
Proof.
  intros Hr Hin Hl. apply dict_mem_in in Hin.
  exists (written d r version now), (PyDict.del r version). eexists.
  split; [exact (run_keep_latest _ script _ now _ _ Hr Hin Hl)|].
  split; [apply written_releases|].
  split.
  { rewrite dict_keys_del, others_in. tauto. }
  split; [apply dict_get_del_same|].
  split; [intros k Hk; now apply dict_get_del_other|].
  split; [apply dict_keys_del | apply written_latest].
Qed.

Lemma removal_keeps_other_releases_and_latest_witness :
  exists (d' r' : PyDict.dict json) (out : list event),
    run 4300 ["unrelease-cli.py"; "1.1.5"]%string "2024-05-01T12:00:00Z"
        (Document (JObj three_remaining_manifest)) =
    (Ok tt, World (Document (JObj d')) out) /\
    PyDict.get d' "releases" = Some (JObj r') /\
    ~ In "1.1.5"%string (PyDict.keys r') /\
    PyDict.get r' "1.1.5" = None /\
    (forall k, k <> "1.1.5"%string ->
               PyDict.get r' k = PyDict.get three_remaining k) /\
    PyDict.keys r' = others (PyDict.keys three_remaining) "1.1.5" /\
    PyDict.get d' "latest" = PyDict.get three_remaining_manifest "latest".
Proof.
  apply (removal_keeps_other_releases_and_latest
           4300 "unrelease-cli.py" "1.1.5" "2024-05-01T12:00:00Z"
           three_remaining_manifest three_remaining).
  - reflexivity.
  - simpl. auto.
  - simpl. discriminate.
Defined.




(** C6.  When the version is [latest] and the only key of [releases], the
    run succeeds, prints the warning, writes a manifest whose [releases] is
    empty and whose [latest] still names the removed version. *)
Theorem sole_version_leaves_latest_stale
        (max_str_digits : nat) (script version now : string)
        (d r : PyDict.dict json) :
  PyDict.get d "latest" = Some (JStr version) ->
  PyDict.get d "releases" = Some (JObj r) ->
  In version (PyDict.keys r) ->
  (forall k, In k (PyDict.keys r) -> k = version) ->
  exists (d' : PyDict.dict json) (out : list event),
    run max_str_digits [script; version] now (Document (JObj d)) =
    (Ok tt, World (Document (JObj d')) out) /\
    exit_status (@Ok unit tt) = 0%Z /\
    In (Stdout warning_line) out /\
    PyDict.get d' "latest" = Some (JStr version) /\
    PyDict.get d' "releases" = Some (JObj []).
Proof.
  intros Hl Hr Hin Hsole. apply dict_mem_in in Hin.
  assert (Ho : others (PyDict.keys r) version = [])
    by now apply others_nil.
  eexists. eexists.
  split; [exact (run_sole_version _ script _ now _ _ Hr Hin Hl Ho)|].
  split; [reflexivity|].
  split; [simpl; auto|].
  split; [now rewrite written_latest|].
  rewrite written_releases. now rewrite (del_nil_of_others_nil _ _ Ho).
Qed.

Lemma sole_version_leaves_latest_stale_witness :
  exists (d' : PyDict.dict json) (out : list event),
    run 4300 ["unrelease-cli.py"; "1.0.0"]%string "2024-05-01T12:00:00Z"
        (Document (JObj sole_manifest)) =
    (Ok tt, World (Document (JObj d')) out) /\
    exit_status (@Ok unit tt) = 0%Z /\
    In (Stdout warning_line) out /\
    PyDict.get d' "latest" = Some (JStr "1.0.0") /\
    PyDict.get d' "releases" = Some (JObj []).
Proof.
  apply (sole_version_leaves_latest_stale
           4300 "unrelease-cli.py" "1.0.0" "2024-05-01T12:00:00Z"
           sole_manifest [("1.0.0", JObj [])]%string).
  - reflexivity.
  - reflexivity.
  - simpl. auto.
  - simpl. intros k [<- | []]. reflexivity.
Defined.

(** C7 as stated fails.  abc does not convert and gets (0, 0, 0), which is
    strictly above the keys of 0.0 and of -1.0.0, whose components all
    convert. *)
Lemma fallback_key_lowest_counterexample :
  ints 4300 (PyStr.split "."%char "abc") = None /\
  version_key 4300 "abc" = [0; 0; 0]%Z /\
  ints 4300 (PyStr.split "."%char "0.0") = Some [0; 0]%Z /\
  tuple_ltb (version_key 4300 "0.0") (version_key 4300 "abc") = true /\
  ints 4300 (PyStr.split "."%char "-1.0.0") = Some [-1; 0; 0]%Z /\
  tuple_ltb (version_key 4300 "-1.0.0") (version_key 4300 "abc") = true.
Proof.
  vm_compute. repeat split; reflexivity.
Qed.

(** The tuples strictly below (0, 0, 0): its two proper prefixes, and
    the tuples whose first component that is not zero, among the first
    three, is negative. *)
Lemma below_fallback (t : list Z) :
  t <> [] ->
  (tuple_ltb t [0; 0; 0]%Z = true <->
   t = [0]%Z \/ t = [0; 0]%Z \/
   (exists a rest, t = a :: rest /\ (a < 0)%Z) \/
   (exists b rest, t = 0%Z :: b :: rest /\ (b < 0)%Z) \/
   (exists c rest, t = 0%Z :: 0%Z :: c :: rest /\ (c < 0)%Z)).
Proof.
  intros Hne. destruct t as [|a t]; [contradiction|]. clear Hne.
  split.
  - simpl. destruct (Z.ltb_spec a 0); [intros _; eauto 8|].
    destruct (Z.ltb_spec 0 a); [discriminate|].
    assert (a = 0%Z) by lia. subst a.
    destruct t as [|b t]; [auto|]. simpl.
    destruct (Z.ltb_spec b 0); [intros _; eauto 8|].
    destruct (Z.ltb_spec 0 b); [discriminate|].
    assert (b = 0%Z) by lia. subst b.
    destruct t as [|c t]; [auto|]. simpl.
    destruct (Z.ltb_spec c 0); [intros _; eauto 10|].
    destruct (Z.ltb_spec 0 c); [discriminate|].
    destruct t; discriminate.
  - intros [E | [E | [(x & rest & E & Hx) | [(x & rest & E & Hx)
                                            | (x & rest & E & Hx)]]]];
      injection E as -> ->; simpl; try reflexivity;
      destruct (Z.ltb_spec x 0); try reflexivity; lia.
Qed.

(** C7, amended.  A version with a component that does not convert has the
    key (0, 0, 0).  That key is strictly above the key of a version whose
    components all convert exactly when the latter is (0,), (0, 0), or has
    a negative number as its first component that is not zero among the
    first three; so it is never above a version whose components are all
    non-negative, the versions keyed (0,) and (0, 0) apart. *)
Theorem fallback_key_not_above_full_versions
        (max_str_digits : nat) (bad c good : string) (t : list Z) :
  In c (PyStr.split "." bad) -> PyStr.int max_str_digits c = None ->
  Forall2 (fun x n => PyStr.int max_str_digits x = Some n)
          (PyStr.split "." good) t ->
  version_key max_str_digits bad = [0; 0; 0]%Z /\
  version_key max_str_digits good = t /\
  (tuple_ltb (version_key max_str_digits good)
             (version_key max_str_digits bad) = true <->
   t = [0]%Z \/ t = [0; 0]%Z \/
   (exists a rest, t = a :: rest /\ (a < 0)%Z) \/
   (exists b rest, t = 0%Z :: b :: rest /\ (b < 0)%Z) \/
   (exists n rest, t = 0%Z :: 0%Z :: n :: rest /\ (n < 0)%Z)) /\
  (Forall (fun n => 0 <= n)%Z t -> t <> [0]%Z -> t <> [0; 0]%Z ->
   tuple_ltb (version_key max_str_digits good)
             (version_key max_str_digits bad) = false).
Proof.
  intros Hc Hfail Hgood.
  assert (Hb : version_key max_str_digits bad = [0; 0; 0]%Z).
  { symmetry. apply numeric_tuple_key_unique. now apply KeyFallback with c. }
  assert (Hg : version_key max_str_digits good = t).
  { symmetry. apply numeric_tuple_key_unique. now apply KeyConverts. }
  assert (Hne : t <> []).
  { intros ->. inversion Hgood as [E|]. symmetry in E.
    now apply split_not_nil in E. }
  rewrite Hb, Hg.
  split; [reflexivity|]. split; [reflexivity|].
  split; [now apply below_fallback|].
  intros Hpos H1 H2.
  destruct (tuple_ltb t [0; 0; 0]%Z) eqn:E; [|reflexivity].
  apply (below_fallback t Hne) in E.
  destruct E as [E | [E | [(x & rest & -> & Hx) | [(x & rest & -> & Hx)
                                                  | (x & rest & -> & Hx)]]]];
    try contradiction; exfalso.
  - inversion Hpos; subst. lia.
  - inversion Hpos as [|? ? _ Hp1]; subst. inversion Hp1; subst. lia.
  - inversion Hpos as [|? ? _ Hp1]; subst.
    inversion Hp1 as [|? ? _ Hp2]; subst. inversion Hp2; subst. lia.
Qed.

Lemma fallback_key_not_above_full_versions_witness :
  version_key 4300 "1.x.0" = [0; 0; 0]%Z /\
  version_key 4300 "0.1" = [0; 1]%Z /\
  (tuple_ltb (version_key 4300 "0.1") (version_key 4300 "1.x.0") = true <->
   [0; 1]%Z = [0]%Z \/ [0; 1]%Z = [0; 0]%Z \/
   (exists a rest, [0; 1]%Z = a :: rest /\ (a < 0)%Z) \/
   (exists b rest, [0; 1]%Z = 0%Z :: b :: rest /\ (b < 0)%Z) \/
   (exists n rest, [0; 1]%Z = 0%Z :: 0%Z :: n :: rest /\ (n < 0)%Z)) /\
  (Forall (fun n => 0 <= n)%Z [0; 1]%Z ->
   [0; 1]%Z <> [0]%Z -> [0; 1]%Z <> [0; 0]%Z ->
   tuple_ltb (version_key 4300 "0.1") (version_key 4300 "1.x.0") = false).
Proof.
  apply (fallback_key_not_above_full_versions
           4300 "1.x.0" "x" "0.1" [0; 1]%Z).
  - simpl. auto.
  - reflexivity.
  - repeat constructor.
Defined.

(** C8.  With no argument or with two or more, the run prints the usage
    line on the diagnostic stream and exits with status 1; the manifest is
    neither opened nor changed. *)
Theorem wrong_arity_prints_usage
        (max_str_digits : nat) (script : string) (args : list string)
        (now : string) (f : file_state) :
  List.length args <> 1%nat ->
  let end_ := run max_str_digits (script :: args) now f in
  fst end_ = Halt (SystemExit 1) /\
  exit_status (fst end_) = 1%Z /\
  log (snd end_) = [Stderr usage_line] /\
  manifest (snd end_) = f /\
  (forall path, ~ In (OpenRead path) (log (snd end_)) /\
                ~ In (OpenWrite path) (log (snd end_))).
Proof.
  intros Hlen end_. unfold end_.
  rewrite run_usage by (simpl; lia).
  simpl. repeat split; intros [H | []]; discriminate H.
Qed.

Lemma wrong_arity_prints_usage_witness :
  let end_ := run 4300 ["unrelease-cli.py"; "1.0.0"; "2.0.0"]%string
                  "2024-05-01T12:00:00Z" (Document (JObj sole_manifest)) in
  fst end_ = Halt (SystemExit 1) /\
  exit_status (fst end_) = 1%Z /\
  log (snd end_) = [Stderr usage_line] /\
  manifest (snd end_) = Document (JObj sole_manifest) /\
  (forall path, ~ In (OpenRead path) (log (snd end_)) /\
                ~ In (OpenWrite path) (log (snd end_))).
Proof.
  apply (wrong_arity_prints_usage
           4300 "unrelease-cli.py" ["1.0.0"; "2.0.0"]%string
           "2024-05-01T12:00:00Z" (Document (JObj sole_manifest))).
  simpl. lia.
Defined.

(** C9.  No run ends with a missing-key error, whatever the arguments and
    the file; and a run that gets through the deletion had the version as a
    key of the [releases] mapping of the manifest it read. *)
Theorem deletion_never_misses_key
        (max_str_digits : nat) (argv : list string) (now : string)
        (f : file_state) :
  fst (run max_str_digits argv now f) <> Halt (Uncaught KeyError) /\
  (fst (run max_str_digits argv now f) = Ok tt ->
   exists (script version : string) (d r : PyDict.dict json),
     argv = [script; version] /\
     f = Document (JObj d) /\
     PyDict.get d "releases" = Some (JObj r) /\
     In version (PyDict.keys r) /\
     del_release (JObj d) version =
     Val (JObj (PyDict.set d "releases" (JObj (PyDict.del r version))))).
Proof.
  pose proof (run_ending max_str_digits argv now f) as He.
  destruct He as [|e Hne|script version d r Ha Hf Hrel Hm].
  - split; discriminate.
  - split; [congruence | discriminate].
  - split; [discriminate|]. intros _.
    exists script, version, d, r. repeat split; try assumption.
    + now apply dict_mem_in.
    + now apply del_release_dict.
Qed.

Lemma deletion_never_misses_key_witness :
  exists (script version : string) (d r : PyDict.dict json),
    ["unrelease-cli.py"; "1.0.0"]%string = [script; version] /\
    Document (JObj sole_manifest) = Document (JObj d) /\
    PyDict.get d "releases" = Some (JObj r) /\
    In version (PyDict.keys r) /\
    del_release (JObj d) version =
    Val (JObj (PyDict.set d "releases" (JObj (PyDict.del r version)))).
Proof.
  apply (proj2 (deletion_never_misses_key
                  4300 ["unrelease-cli.py"; "1.0.0"]%string
                  "2024-05-01T12:00:00Z" (Document (JObj sole_manifest)))).
  vm_compute. reflexivity.
Defined.

(** C10.  The sort keeps versions with equal keys in the order they had,
    and in a recompute the new [latest] is the last, in the key order of
    [releases], of the remaining versions with the greatest numeric tuple
    key: it is not the removed version, no remaining version before it has
    a greater key, and every remaining version after it has a smaller
    one. *)
Theorem ties_resolved_by_key_order
        (max_str_digits : nat) (script version now : string)
        (d r : PyDict.dict json) :
  PyDict.get d "latest" = Some (JStr version) ->
  PyDict.get d "releases" = Some (JObj r) ->
  In version (PyDict.keys r) ->
  (exists k, In k (PyDict.keys r) /\ k <> version) ->
  (forall l k,
      filter (same_rank (version_key max_str_digits) tuple_ltb k)
             (sort_versions max_str_digits l) =
      filter (same_rank (version_key max_str_digits) tuple_ltb k) l) /\
  exists (newest : string) (d' : PyDict.dict json) (out : list event)
         (before after : list string) (kn : list Z),
    run max_str_digits [script; version] now (Document (JObj d)) =
    (Ok tt, World (Document (JObj d')) out) /\
    PyDict.get d' "latest" = Some (JStr newest) /\
    newest <> version /\
    PyDict.keys r = before ++ newest :: after /\
    numeric_tuple_key max_str_digits newest kn /\
    (forall v kv, In v before -> v <> version ->
                  numeric_tuple_key max_str_digits v kv ->
                  tuple_ltb kn kv = false) /\
    (forall v kv, In v after -> v <> version ->
                  numeric_tuple_key max_str_digits v kv ->
                  tuple_ltb kv kn = true).
Proof.
  intros Hl Hr Hin Hex.
  pose proof (remaining_not_nil r version Hex) as Hne.
  apply dict_mem_in in Hin.
  split.
  { intros l k. apply sort_stable. exact tuple_ltb_ntrans. }
  pose proof (newest_last_greatest max_str_digits _ Hne) as Hg.
  set (newest := last _ _) in Hg.
  assert (Hnew : In newest (others (PyDict.keys r) version))
    by (eapply last_greatest_in; exact Hg).
  destruct Hg as (before' & after' & Hsplit & Hbefore & Hafter).
  unfold others in Hsplit.
  destruct (filter_split _ _ _ _ _ Hsplit)
    as (before & after & Hkeys & Hfb & Hfa).
  exists newest. eexists. eexists. exists before, after.
  exists (version_key max_str_digits newest).
  split; [exact (run_new_latest _ script _ now _ _ Hr Hin Hl Hne)|].
  split; [rewrite written_latest; apply dict_get_set_same|].
  split; [apply others_in in Hnew; tauto|].
  split; [exact Hkeys|].
  split; [apply version_key_spec|].
  split.
  - intros v kv Hv Hvne Hkv.
    rewrite (numeric_tuple_key_unique _ _ _ Hkv).
    apply Hbefore. rewrite <- Hfb. apply filter_In. split; [exact Hv|].
    apply negb_true_iff. now apply String.eqb_neq.
  - intros v kv Hv Hvne Hkv.
    rewrite (numeric_tuple_key_unique _ _ _ Hkv).
    apply Hafter. rewrite <- Hfa. apply filter_In. split; [exact Hv|].
    apply negb_true_iff. now apply String.eqb_neq.
Qed.

Lemma ties_resolved_by_key_order_witness :
  (forall l k,
      filter (same_rank (version_key 4300) tuple_ltb k)
             (sort_versions 4300 l) =
      filter (same_rank (version_key 4300) tuple_ltb k) l) /\
  exists (newest : string) (d' : PyDict.dict json) (out : list event)
         (before after : list string) (kn : list Z),
    run 4300 ["unrelease-cli.py"; "2.0.0"]%string "2024-05-01T12:00:00Z"
        (Document (JObj tied_three_manifest)) =
    (Ok tt, World (Document (JObj d')) out) /\
    PyDict.get d' "latest" = Some (JStr newest) /\
    newest <> "2.0.0"%string /\
    PyDict.keys tied_three_releases = before ++ newest :: after /\
    numeric_tuple_key 4300 newest kn /\
    (forall v kv, In v before -> v <> "2.0.0"%string ->
                  numeric_tuple_key 4300 v kv ->
                  tuple_ltb kn kv = false) /\
    (forall v kv, In v after -> v <> "2.0.0"%string ->
                  numeric_tuple_key 4300 v kv ->
                  tuple_ltb kv kn = true).
Proof.
  apply (ties_resolved_by_key_order
           4300 "unrelease-cli.py" "2.0.0" "2024-05-01T12:00:00Z"
           tied_three_manifest tied_three_releases).
  - reflexivity.
  - reflexivity.
  - simpl. auto.
  - exists "abc"%string. split; [simpl; auto | discriminate].
Defined.

(** The tie of the example: 0.0.0 and abc share the greatest key, 0.0 is
    smaller, and abc, the later of the two in [releases], is chosen. *)
Example ties_example :
  sort_versions 4300 ["0.0.0"; "abc"; "0.0"]%string =
  ["0.0"; "0.0.0"; "abc"]%string /\
  manifest (snd (run 4300 ["unrelease-cli.py"; "2.0.0"]%string
                     "2024-05-01T12:00:00Z"
                     (Document (JObj tied_three_manifest)))) =
  Document (JObj [("latest", JStr "abc");
                  ("releases", JObj [("0.0.0", JObj []); ("abc", JObj []);
                                     ("0.0", JObj [])]);
                  ("updated_at", JStr "2024-05-01T12:00:00Z")]%string).
Proof.
  vm_compute. split; reflexivity.
Qed.

(** Decimal digits of other scripts convert: with ٣.0.0 (an Arabic-Indic
    three) and 1.0.0 remaining, the new [latest] is ٣.0.0. *)
Example unicode_digits_example :
  version_key 4300 "٣.0.0" = [3; 0; 0]%Z /\
  sort_versions 4300 ["٣.0.0"; "1.0.0"]%string = ["1.0.0"; "٣.0.0"]%string /\
  manifest (snd (run 4300 ["unrelease-cli.py"; "4.0.0"]%string
                     "2024-05-01T12:00:00Z"
                     (Document
                        (JObj [("latest", JStr "4.0.0");
                               ("releases",
                                JObj [("4.0.0", JObj []); ("٣.0.0", JObj []);
                                      ("1.0.0", JObj [])])]%string)))) =
  Document (JObj [("latest", JStr "٣.0.0");
                  ("releases", JObj [("٣.0.0", JObj []); ("1.0.0", JObj [])]);
                  ("updated_at", JStr "2024-05-01T12:00:00Z")]%string).
Proof.
  vm_compute. repeat split; reflexivity.
Qed.

(** * Further properties *)

(** ** Every run, with its file and its log *)

Lemma run_shape (max_str_digits : nat) (argv : list string) (now : string)
      (f : file_state) :
  shape argv f (run max_str_digits argv now f).
Proof.
  destruct (Nat.eq_dec (List.length argv) 2) as [Hlen|Hlen];
    [|rewrite run_usage by assumption; now constructor].
  destruct argv as [|script [|version [|? ?]]]; try discriminate. clear Hlen.
  assert (Hraise : forall e out,
             e <> KeyError ->
             out = [OpenRead manifest_path] \/
             out = [OpenRead manifest_path; Stdout warning_line] ->
             shape [script; version] f (Halt (Uncaught e), World f out))
    by (intros e out He Hout; now apply ShapeRaise).
  assert (Hnf : shape [script; version] f
                      (Halt (SystemExit 1),
                       World f [OpenRead manifest_path;
                                Stderr (not_found_line version)]))
    by exact (ShapeNotFound [script; version] f eq_refl).
  destruct f as [| | | |j];
    [unfold run, main, main_on, bind; simpl; apply Hraise;
     [discriminate | now left] ..|].
  destruct j as [| | | | | |d];
    [unfold run, main, main_on, bind; simpl; apply Hraise;
     [discriminate | now left] ..|].
  destruct (PyDict.get d "releases") as [rel|] eqn:Hrel;
    [|rewrite run_no_releases by assumption; exact Hnf].
  destruct rel as [| | | |t|xs|r].
  1-4: unfold run, main, main_on, bind; simpl; rewrite Hrel; simpl;
       apply Hraise; [discriminate | now left].
  - (* releases is a string *)
    unfold run, main, main_on, bind; simpl; rewrite Hrel; simpl.
    destruct (PyStr.contains t version); simpl; [|exact Hnf].
    destruct (py_eq_str _ version); simpl.
    + unfold update_latest, update_latest_on, bind; simpl; rewrite Hrel; simpl.
      destruct t; simpl.
      * unfold del_release; simpl; rewrite Hrel; simpl.
        apply Hraise; [discriminate | now right].
      * apply Hraise; [discriminate | now left].
    + unfold del_release; simpl; rewrite Hrel; simpl.
      apply Hraise; [discriminate | now left].
  - (* releases is a list *)
    unfold run, main, main_on, bind; simpl; rewrite Hrel; simpl.
    destruct (existsb _ xs) eqn:Hin; simpl; [|exact Hnf].
    destruct (py_eq_str _ version); simpl.
    + unfold update_latest, update_latest_on, bind; simpl; rewrite Hrel; simpl.
      destruct xs; [discriminate|]. simpl.
      apply Hraise; [discriminate | now left].
    + unfold del_release; simpl; rewrite Hrel; simpl.
      apply Hraise; [discriminate | now left].
  - (* releases is a dict *)
    destruct (PyDict.mem r version) eqn:Hm;
      [|rewrite (run_not_found _ _ _ _ _ _ Hrel Hm); exact Hnf].
    destruct (py_eq_str match PyDict.get d "latest" with
                        | Some x => x
                        | None => JNull
                        end version) eqn:E.
    + apply py_eq_str_true in E.
      assert (Hl : PyDict.get d "latest" = Some (JStr version))
        by (destruct (PyDict.get d "latest"); congruence).
      destruct (others (PyDict.keys r) version) as [|k ks] eqn:Ho.
      * rewrite (run_sole_version _ _ _ _ _ _ Hrel Hm Hl Ho).
        refine (ShapeOk [script; version] _ _ [Stdout warning_line]
                        eq_refl _).
        right. now left.
      * rewrite (run_new_latest _ _ _ _ _ _ Hrel Hm Hl)
          by (rewrite Ho; discriminate).
        refine (ShapeOk [script; version] _ _
                        [Stdout (updated_latest_line _)] eq_refl _).
        right. right. now eexists.
    + rewrite (run_keep_latest _ _ _ _ _ _ Hrel Hm).
      * refine (ShapeOk [script; version] _ _ [] eq_refl _). now left.
      * intros Hl. rewrite Hl in E. simpl in E.
        rewrite String.eqb_refl in E. discriminate.
Qed.

(** What a successful run was given and what it wrote: [d0] is the document
    after the [latest] step. *)
Lemma run_ok_inv (max_str_digits : nat) (argv : list string) (now : string)
      (f : file_state) (w : world) :
  run max_str_digits argv now f = (Ok tt, w) ->
  exists script version d r d0,
    argv = [script; version] /\
    f = Document (JObj d) /\
    PyDict.get d "releases" = Some (JObj r) /\
    PyDict.mem r version = true /\
    manifest w = Document (JObj (written d0 r version now)) /\
    (d0 = d \/
     exists newest,
       PyDict.get d "latest" = Some (JStr version) /\
       d0 = PyDict.set d "latest" (JStr newest)).
Proof.
  intros Hrun.
  pose proof (run_ending max_str_digits argv now f) as He.
  rewrite Hrun in He. simpl in He.
  inversion He as [| |script version d r Hargv Hf Hrel Hm]. subst argv f.
  exists script, version, d, r.
  destruct (py_eq_str match PyDict.get d "latest" with
                      | Some x => x
                      | None => JNull
                      end version) eqn:E.
  - apply py_eq_str_true in E.
    assert (Hl : PyDict.get d "latest" = Some (JStr version))
      by (destruct (PyDict.get d "latest"); congruence).
    destruct (others (PyDict.keys r) version) as [|k ks] eqn:Ho.
    + rewrite (run_sole_version _ _ _ _ _ _ Hrel Hm Hl Ho) in Hrun.
      injection Hrun as <-. exists d. simpl. repeat split; auto.
    + rewrite (run_new_latest _ _ _ _ _ _ Hrel Hm Hl) in Hrun
        by (rewrite Ho; discriminate).
      injection Hrun as <-. eexists. simpl. repeat split; eauto.
  - rewrite (run_keep_latest _ _ _ _ _ _ Hrel Hm) in Hrun.
    + injection Hrun as <-. exists d. simpl. repeat split; auto.
    + intros Hl. rewrite Hl in E. simpl in E.
      rewrite String.eqb_refl in E. discriminate.
Qed.

(** ** Manifests that are not of the expected type *)

(** X4.  A manifest whose top-level value is not an object (a list, a
    string, a number, a boolean or [null]) ends the run with an uncaught
    [AttributeError] at the first [data.get], whatever the version; the
    file is left as it was. *)
Theorem top_level_not_object_raises
        (max_str_digits : nat) (script version now : string) (j : json) :
  (forall d, j <> JObj d) ->
  run max_str_digits [script; version] now (Document j) =
  (Halt (Uncaught AttributeError),
   World (Document j) [OpenRead manifest_path]).
Proof.
  intros Hj. destruct j; try reflexivity. now contradiction (Hj kvs).
Qed.

Lemma top_level_not_object_raises_witness :
  (forall d, JArr [JStr "1.0.0"] <> JObj d) /\
  run 4300 ["unrelease-cli.py"; "1.0.0"]%string "2024-05-01T12:00:00Z"
      (Document (JArr [JStr "1.0.0"])) =
  (Halt (Uncaught AttributeError),
   World (Document (JArr [JStr "1.0.0"])) [OpenRead manifest_path]).
Proof.
  assert (H : forall d, JArr [JStr "1.0.0"] <> JObj d)
    by (intros d; discriminate).
  split; [exact H|].
  exact (top_level_not_object_raises 4300 "unrelease-cli.py" "1.0.0"
           "2024-05-01T12:00:00Z" (JArr [JStr "1.0.0"]) H).
Defined.

(** X5.  When [releases] is present but is [null], a boolean or a number,
    the membership test raises [TypeError]: the run ends with that
    exception uncaught instead of the not-found message, and the file is
    left as it was. *)
Theorem releases_scalar_raises
        (max_str_digits : nat) (script version now : string)
        (d : PyDict.dict json) (rel : json) :
  PyDict.get d "releases" = Some rel ->
  py_in version rel = Exc TypeError ->
  run max_str_digits [script; version] now (Document (JObj d)) =
  (Halt (Uncaught TypeError),
   World (Document (JObj d)) [OpenRead manifest_path]).
Proof.
  intros Hrel Hin. unfold run, main, main_on, bind. simpl. rewrite Hrel. simpl.
  now rewrite Hin.
Qed.

Lemma releases_scalar_raises_witness :
  PyDict.get [("latest", JStr "1.0.0"); ("releases", JNull)]%string
             "releases" = Some JNull /\
  py_in "1.0.0" JNull = Exc TypeError /\
  run 4300 ["unrelease-cli.py"; "1.0.0"]%string "2024-05-01T12:00:00Z"
      (Document (JObj [("latest", JStr "1.0.0"); ("releases", JNull)]%string))
  = (Halt (Uncaught TypeError),
     World (Document
              (JObj [("latest", JStr "1.0.0"); ("releases", JNull)]%string))
           [OpenRead manifest_path]).
Proof.
  split; [reflexivity|]. split; [reflexivity|].
  exact (releases_scalar_raises 4300 "unrelease-cli.py" "1.0.0"
           "2024-05-01T12:00:00Z"
           [("latest", JStr "1.0.0"); ("releases", JNull)]%string JNull
           eq_refl eq_refl).
Defined.

(** The values for which [py_in] raises are exactly [null], booleans and
    numbers. *)
Lemma py_in_raises (s : string) (x : json) :
  py_in s x = Exc TypeError <->
  x = JNull \/ (exists b, x = JBool b) \/ (exists n, x = JInt n) \/
  (exists bits, x = JFloat bits).
Proof.
  split.
  - destruct x; simpl; try discriminate; intros _; eauto.
  - intros [-> | [(b & ->) | [(n & ->) | (bits & ->)]]]; reflexivity.
Qed.

(** X6.  When [releases] is a list or a string in which the membership test
    finds the version, the test passes although there is no such key: the
    run then ends with an uncaught [AttributeError] or [TypeError] (never
    [KeyError]) before anything is written, and the file is left as it
    was. *)
Theorem releases_not_dict_raises
        (max_str_digits : nat) (script version now : string)
        (d : PyDict.dict json) (rel : json) :
  PyDict.get d "releases" = Some rel ->
  (forall r, rel <> JObj r) ->
  py_in version rel = Val true ->
  let end_ := run max_str_digits [script; version] now (Document (JObj d)) in
  (fst end_ = Halt (Uncaught AttributeError) \/
   fst end_ = Halt (Uncaught TypeError)) /\
  manifest (snd end_) = Document (JObj d) /\
  forall path, ~ In (OpenWrite path) (log (snd end_)).
Proof.
  intros Hrel Hnd Hin end_. subst end_.
  assert (Hnw1 : forall path,
             ~ In (OpenWrite path) [OpenRead manifest_path])
    by (intros p [H | []]; discriminate H).
  assert (Hnw2 : forall path,
             ~ In (OpenWrite path)
               [OpenRead manifest_path; Stdout warning_line])
    by (intros p [H | [H | []]]; discriminate H).
  destruct rel as [| | | |t|xs|r]; try discriminate Hin;
    [| |now contradiction (Hnd r)].
  - unfold run, main, main_on, bind; simpl; rewrite Hrel; simpl.
    simpl in Hin. injection Hin as ->. simpl.
    destruct (py_eq_str _ version); simpl.
    + unfold update_latest, update_latest_on, bind; simpl; rewrite Hrel; simpl.
      destruct t; simpl.
      * unfold del_release; simpl; rewrite Hrel; simpl. auto.
      * auto.
    + unfold del_release; simpl; rewrite Hrel; simpl. auto.
  - unfold run, main, main_on, bind; simpl; rewrite Hrel; simpl.
    simpl in Hin. injection Hin as Hin. rewrite Hin. simpl.
    destruct (py_eq_str _ version); simpl.
    + unfold update_latest, update_latest_on, bind; simpl; rewrite Hrel; simpl.
      destruct xs; [discriminate|]. simpl. auto.
    + unfold del_release; simpl; rewrite Hrel; simpl. auto.
Qed.

Lemma releases_not_dict_raises_witness :
  let d := [("latest", JStr "2.0.0");
            ("releases", JArr [JStr "1.0.0"; JStr "2.0.0"])]%string in
  let end_ := run 4300 ["unrelease-cli.py"; "1.0.0"]%string
                  "2024-05-01T12:00:00Z" (Document (JObj d)) in
  (fst end_ = Halt (Uncaught AttributeError) \/
   fst end_ = Halt (Uncaught TypeError)) /\
  manifest (snd end_) = Document (JObj d) /\
  forall path, ~ In (OpenWrite path) (log (snd end_)).
Proof.
  intros d.
  refine (releases_not_dict_raises 4300 "unrelease-cli.py" "1.0.0"
            "2024-05-01T12:00:00Z" d
            (JArr [JStr "1.0.0"; JStr "2.0.0"]) eq_refl _ eq_refl).
  intros r; discriminate.
Defined.

(** ** What a successful run writes *)

Section DictSetFacts.
Variable V : Type.
Implicit Types (d : PyDict.dict V) (k : string) (v : V).

Lemma dict_keys_set_mem d k v :
  PyDict.mem d k = true -> PyDict.keys (PyDict.set d k v) = PyDict.keys d.
Proof.
  unfold PyDict.mem, PyDict.keys.
  induction d as [|[k0 v0] d IH]; simpl; [discriminate|].
  rewrite (String.eqb_sym k k0).
  destruct (String.eqb k0 k); simpl; [reflexivity|].
  intros H. now rewrite IH.
Qed.

Lemma dict_keys_set_new d k v :
  PyDict.mem d k = false ->
  PyDict.keys (PyDict.set d k v) = PyDict.keys d ++ [k].
Proof.
  unfold PyDict.mem, PyDict.keys.
  induction d as [|[k0 v0] d IH]; simpl; [reflexivity|].
  rewrite (String.eqb_sym k k0).
  destruct (String.eqb k0 k); simpl; [discriminate|].
  intros H. now rewrite IH.
Qed.

Lemma dict_set_set_same d k v v' :
  PyDict.set (PyDict.set d k v) k v' = PyDict.set d k v'.
Proof.
  induction d as [|[k0 v0] d IH]; simpl.
  - now rewrite String.eqb_refl.
  - destruct (String.eqb k0 k) eqn:E; simpl; rewrite E;
      [reflexivity | now rewrite IH].
Qed.

(** Two assignments to different keys commute when the first key is
    already there (otherwise the order of the appended keys differs). *)
Lemma dict_set_comm d k k' v v' :
  k <> k' -> PyDict.mem d k = true ->
  PyDict.set (PyDict.set d k v) k' v' = PyDict.set (PyDict.set d k' v') k v.
Proof.
  intros Hne. unfold PyDict.mem, PyDict.keys.
  induction d as [|[k0 v0] d IH]; simpl; [discriminate|].
  rewrite (String.eqb_sym k k0).
  destruct (String.eqb_spec k0 k) as [->|Hk]; simpl.
  - intros _. destruct (String.eqb_spec k k'); [contradiction|]. simpl.
    now rewrite String.eqb_refl.
  - intros Hm. destruct (String.eqb_spec k0 k') as [->|Hk']; simpl.
    + destruct (String.eqb_spec k' k); [congruence | reflexivity].
    + destruct (String.eqb_spec k0 k); [contradiction|].
      now rewrite IH.
Qed.

Lemma dict_del_comm d k k' :
  PyDict.del (PyDict.del d k) k' = PyDict.del (PyDict.del d k') k.
Proof.
  unfold PyDict.del.
  induction d as [|[k0 v0] d IH]; simpl; [reflexivity|].
  destruct (String.eqb k0 k) eqn:E, (String.eqb k0 k') eqn:E'; simpl;
    rewrite ?E, ?E'; simpl; now rewrite IH.
Qed.

Lemma dict_mem_del_same d k : PyDict.mem (PyDict.del d k) k = false.
Proof.
  destruct (PyDict.mem (PyDict.del d k) k) eqn:E; [|reflexivity].
  apply dict_mem_get in E. now rewrite dict_get_del_same in E.
Qed.
End DictSetFacts.

Lemma run_ok_fst (max_str_digits : nat) (argv : list string) (now : string)
      (f : file_state) :
  fst (run max_str_digits argv now f) = Ok tt ->
  exists script version d r d0,
    argv = [script; version] /\
    f = Document (JObj d) /\
    PyDict.get d "releases" = Some (JObj r) /\
    PyDict.mem r version = true /\
    manifest (snd (run max_str_digits argv now f)) =
    Document (JObj (written d0 r version now)) /\
    (d0 = d \/
     exists newest,
       PyDict.get d "latest" = Some (JStr version) /\
       d0 = PyDict.set d "latest" (JStr newest)).
Proof.
  intros H.
  destruct (run max_str_digits argv now f) as [res w] eqn:E.
  simpl in H. subst res. simpl. now apply run_ok_inv with max_str_digits.
Qed.

(** The document after the [latest] step has the keys of the one read. *)
Lemma latest_step_keys (d d0 : PyDict.dict json) (version : string) :
  (d0 = d \/
   exists newest,
     PyDict.get d "latest" = Some (JStr version) /\
     d0 = PyDict.set d "latest" (JStr newest)) ->
  PyDict.keys d0 = PyDict.keys d /\
  forall k, k <> "latest"%string -> PyDict.get d0 k = PyDict.get d k.
Proof.
  intros [-> | (newest & Hl & ->)]; [now split|].
  split.
  - apply dict_keys_set_mem. apply dict_mem_get. now rewrite Hl.
  - intros k Hk. now apply dict_get_set_other.
Qed.

(** X7.  Every successful run, whichever way [latest] was handled, writes
    a document whose [updated_at] is the current time stamp, replacing
    whatever the field held. *)
Theorem successful_run_stamps_time
        (max_str_digits : nat) (argv : list string) (now : string)
        (f : file_state) :
  fst (run max_str_digits argv now f) = Ok tt ->
  exists d',
    manifest (snd (run max_str_digits argv now f)) = Document (JObj d') /\
    PyDict.get d' "updated_at" = Some (JStr now).
Proof.
  intros H.
  destruct (run_ok_fst _ _ _ _ H)
    as (script & version & d & r & d0 & _ & _ & _ & _ & Hw & _).
  eexists. split; [exact Hw|]. unfold written. apply dict_get_set_same.
Qed.

Lemma successful_run_stamps_time_witness :
  fst (run 4300 ["unrelease-cli.py"; "2.0.0"]%string "2024-05-01T12:00:00Z"
           (Document (JObj three_remaining_manifest))) = Ok tt /\
  exists d',
    manifest (snd (run 4300 ["unrelease-cli.py"; "2.0.0"]%string
                       "2024-05-01T12:00:00Z"
                       (Document (JObj three_remaining_manifest))))
    = Document (JObj d') /\
    PyDict.get d' "updated_at" = Some (JStr "2024-05-01T12:00:00Z").
Proof.
  assert (H : fst (run 4300 ["unrelease-cli.py"; "2.0.0"]%string
                       "2024-05-01T12:00:00Z"
                       (Document (JObj three_remaining_manifest))) = Ok tt)
    by (vm_compute; reflexivity).
  split; [exact H|].
  exact (successful_run_stamps_time 4300 ["unrelease-cli.py"; "2.0.0"]%string
           "2024-05-01T12:00:00Z"
           (Document (JObj three_remaining_manifest)) H).
Defined.

(** X8.  A successful run keeps every top-level field other than [latest],
    [releases] and [updated_at] with its value, and keeps the order of the
    top-level keys: [updated_at] is appended at the end when the document
    had none, and no other key is added or dropped. *)
Theorem successful_run_keeps_other_fields
        (max_str_digits : nat) (argv : list string) (now : string)
        (d : PyDict.dict json) :
  fst (run max_str_digits argv now (Document (JObj d))) = Ok tt ->
  exists d',
    manifest (snd (run max_str_digits argv now (Document (JObj d)))) =
    Document (JObj d') /\
    (forall k, k <> "latest"%string -> k <> "releases"%string ->
               k <> "updated_at"%string ->
               PyDict.get d' k = PyDict.get d k) /\
    PyDict.keys d' =
    (if PyDict.mem d "updated_at" then PyDict.keys d
     else PyDict.keys d ++ ["updated_at"%string]).
Proof.
  intros H.
  destruct (run_ok_fst _ _ _ _ H)
    as (script & version & d_ & r & d0 & _ & Hf & Hrel & _ & Hw & Hd0).
  injection Hf as <-.
  destruct (latest_step_keys _ _ _ Hd0) as [Hkeys Hget].
  eexists. split; [exact Hw|]. unfold written. split.
  - intros k Hl Hr Hu. rewrite !dict_get_set_other by assumption.
    now apply Hget.
  - assert (Hr0 : PyDict.mem d0 "releases" = true).
    { apply dict_mem_get. rewrite Hget by discriminate. now rewrite Hrel. }
    assert (Hk1 : PyDict.keys
                    (PyDict.set d0 "releases"
                                (JObj (PyDict.del r version)))
                  = PyDict.keys d)
      by (rewrite dict_keys_set_mem by assumption; exact Hkeys).
    assert (Hm : PyDict.mem
                   (PyDict.set d0 "releases" (JObj (PyDict.del r version)))
                   "updated_at"
                 = PyDict.mem d "updated_at")
      by (unfold PyDict.mem; now rewrite Hk1).
    destruct (PyDict.mem d "updated_at") eqn:Hu.
    + rewrite dict_keys_set_mem by assumption. exact Hk1.
    + rewrite dict_keys_set_new by assumption. now rewrite Hk1.
Qed.

Lemma successful_run_keeps_other_fields_witness :
  let d := [("schema", JInt 1); ("latest", JStr "2.0.0");
            ("releases", JObj three_remaining)]%string in
  fst (run 4300 ["unrelease-cli.py"; "2.0.0"]%string "2024-05-01T12:00:00Z"
           (Document (JObj d))) = Ok tt /\
  exists d',
    manifest (snd (run 4300 ["unrelease-cli.py"; "2.0.0"]%string
                       "2024-05-01T12:00:00Z" (Document (JObj d))))
    = Document (JObj d') /\
    (forall k, k <> "latest"%string -> k <> "releases"%string ->
               k <> "updated_at"%string ->
               PyDict.get d' k = PyDict.get d k) /\
    PyDict.keys d' =
    (if PyDict.mem d "updated_at" then PyDict.keys d
     else PyDict.keys d ++ ["updated_at"%string]).
Proof.
  intros d.
  assert (H : fst (run 4300 ["unrelease-cli.py"; "2.0.0"]%string
                       "2024-05-01T12:00:00Z" (Document (JObj d))) = Ok tt)
    by (vm_compute; reflexivity).
  split; [exact H|].
  exact (successful_run_keeps_other_fields 4300
           ["unrelease-cli.py"; "2.0.0"]%string "2024-05-01T12:00:00Z" d H).
Defined.

(** A version that is a key of the [releases] dict always leads to a
    successful run. *)
Lemma run_member (max_str_digits : nat) (script version now : string)
      (d r : PyDict.dict json) :
  PyDict.get d "releases" = Some (JObj r) ->
  PyDict.mem r version = true ->
  exists d0 out,
    run max_str_digits [script; version] now (Document (JObj d)) =
    (Ok tt, World (Document (JObj (written d0 r version now))) out) /\
    (d0 = d \/
     exists newest,
       PyDict.get d "latest" = Some (JStr version) /\
       d0 = PyDict.set d "latest" (JStr newest)).
Proof.
  intros Hrel Hm.
  destruct (py_eq_str match PyDict.get d "latest" with
                      | Some x => x
                      | None => JNull
                      end version) eqn:E.
  - apply py_eq_str_true in E.
    assert (Hl : PyDict.get d "latest" = Some (JStr version))
      by (destruct (PyDict.get d "latest"); congruence).
    destruct (others (PyDict.keys r) version) as [|k ks] eqn:Ho.
    + exists d. eexists. split; [|now left].
      exact (run_sole_version _ _ _ _ _ _ Hrel Hm Hl Ho).
    + eexists. eexists. split.
      * apply (run_new_latest _ _ _ _ _ _ Hrel Hm Hl).
        rewrite Ho. discriminate.
      * right. eexists. split; [exact Hl | reflexivity].
  - exists d. eexists. split; [|now left].
    apply (run_keep_latest _ _ _ _ _ _ Hrel Hm).
    intros Hl. rewrite Hl in E. simpl in E.
    rewrite String.eqb_refl in E. discriminate.
Qed.

(** X9.  Whenever the version is a key of the [releases] object, the run
    succeeds, whether or not the version is [latest] and whether or not
    other versions remain; the [releases] it writes has lost exactly that
    key: the other keys keep their order and their metadata. *)
Theorem release_key_removed_on_every_path
        (max_str_digits : nat) (script version now : string)
        (d r : PyDict.dict json) :
  PyDict.get d "releases" = Some (JObj r) ->
  In version (PyDict.keys r) ->
  let end_ := run max_str_digits [script; version] now (Document (JObj d)) in
  exists d' r',
    fst end_ = Ok tt /\
    manifest (snd end_) = Document (JObj d') /\
    PyDict.get d' "releases" = Some (JObj r') /\
    PyDict.keys r' = others (PyDict.keys r) version /\
    PyDict.get r' version = None /\
    (forall k, k <> version -> PyDict.get r' k = PyDict.get r k).
Proof.
  intros Hrel Hin end_. subst end_. apply dict_mem_in in Hin.
  destruct (run_member max_str_digits script version now d r Hrel Hin)
    as (d0 & out & -> & _).
  exists (written d0 r version now), (PyDict.del r version). simpl.
  split; [reflexivity|]. split; [reflexivity|].
  split; [apply written_releases|].
  split; [apply dict_keys_del|].
  split; [apply dict_get_del_same|].
  intros k Hk. now apply dict_get_del_other.
Qed.

Lemma release_key_removed_on_every_path_witness :
  let end_ := run 4300 ["unrelease-cli.py"; "1.0.0"]%string
                  "2024-05-01T12:00:00Z" (Document (JObj sole_manifest)) in
  exists d' r',
    fst end_ = Ok tt /\
    manifest (snd end_) = Document (JObj d') /\
    PyDict.get d' "releases" = Some (JObj r') /\
    PyDict.keys r' = others (PyDict.keys [("1.0.0"%string, JObj [])]) "1.0.0" /\
    PyDict.get r' "1.0.0" = None /\
    (forall k, k <> "1.0.0"%string ->
               PyDict.get r' k = PyDict.get [("1.0.0"%string, JObj [])] k).
Proof.
  refine (release_key_removed_on_every_path 4300 "unrelease-cli.py" "1.0.0"
            "2024-05-01T12:00:00Z" sole_manifest [("1.0.0"%string, JObj [])]
            eq_refl _).
  simpl. now left.
Defined.

(** X10.  Running the script again with the same version on the file that
    a successful run has written reports the version as not found: exit
    status 1, the error on the diagnostic stream, and the file left as the
    first run wrote it. *)
Theorem second_run_reports_not_found
        (max_str_digits : nat) (argv : list string) (now now' : string)
        (f : file_state) :
  fst (run max_str_digits argv now f) = Ok tt ->
  run max_str_digits argv now'
      (manifest (snd (run max_str_digits argv now f))) =
  (Halt (SystemExit 1),
   World (manifest (snd (run max_str_digits argv now f)))
         [OpenRead manifest_path;
          Stderr (not_found_line (nth 1 argv EmptyString))]).
Proof.
  intros H.
  destruct (run_ok_fst _ _ _ _ H)
    as (script & version & d & r & d0 & -> & _ & _ & _ & Hw & _).
  rewrite Hw. simpl.
  apply run_not_found with (PyDict.del r version).
  - apply written_releases.
  - apply dict_mem_del_same.
Qed.

Lemma second_run_reports_not_found_witness :
  fst (run 4300 ["unrelease-cli.py"; "1.1.5"]%string "2024-05-01T12:00:00Z"
           (Document (JObj three_remaining_manifest))) = Ok tt /\
  run 4300 ["unrelease-cli.py"; "1.1.5"]%string "2024-05-02T08:30:00Z"
      (manifest (snd (run 4300 ["unrelease-cli.py"; "1.1.5"]%string
                          "2024-05-01T12:00:00Z"
                          (Document (JObj three_remaining_manifest))))) =
  (Halt (SystemExit 1),
   World (manifest (snd (run 4300 ["unrelease-cli.py"; "1.1.5"]%string
                             "2024-05-01T12:00:00Z"
                             (Document (JObj three_remaining_manifest)))))
         [OpenRead manifest_path;
          Stderr (not_found_line
                    (nth 1 ["unrelease-cli.py"; "1.1.5"]%string
                         EmptyString))]).
Proof.
  assert (H : fst (run 4300 ["unrelease-cli.py"; "1.1.5"]%string
                       "2024-05-01T12:00:00Z"
                       (Document (JObj three_remaining_manifest))) = Ok tt)
    by (vm_compute; reflexivity).
  split; [exact H|].
  exact (second_run_reports_not_found 4300
           ["unrelease-cli.py"; "1.1.5"]%string
           "2024-05-01T12:00:00Z" "2024-05-02T08:30:00Z"
           (Document (JObj three_remaining_manifest)) H).
Defined.

(** Stamping and replacing [releases] a second time overrides the first. *)
Lemma written_twice (d r r' : PyDict.dict json) (v v' t t' : string) :
  PyDict.mem d "releases" = true ->
  written (written d r v t) r' v' t' = written d r' v' t'.
Proof.
  intros Hm. unfold written.
  rewrite <- (dict_set_comm _ (PyDict.set d "releases" (JObj (PyDict.del r v)))
                "releases" "updated_at"
                (JObj (PyDict.del r' v')) (JStr t)).
  - now rewrite dict_set_set_same, dict_set_set_same.
  - discriminate.
  - apply dict_mem_get. rewrite dict_get_set_same. discriminate.
Qed.

(** X11.  Removing two different versions, neither of them [latest], in
    two successive runs gives the same file in either order: the original
    document with both keys gone from [releases] and stamped with the time
    of the second run. *)
Theorem two_removals_commute
        (max_str_digits : nat) (script v1 v2 t1 t2 : string)
        (d r : PyDict.dict json) :
  PyDict.get d "releases" = Some (JObj r) ->
  In v1 (PyDict.keys r) -> In v2 (PyDict.keys r) -> v1 <> v2 ->
  PyDict.get d "latest" <> Some (JStr v1) ->
  PyDict.get d "latest" <> Some (JStr v2) ->
  let run1 v t f := run max_str_digits [script; v] t f in
  let end12 := run1 v2 t2 (manifest (snd (run1 v1 t1 (Document (JObj d))))) in
  let end21 := run1 v1 t2 (manifest (snd (run1 v2 t1 (Document (JObj d))))) in
  fst end12 = Ok tt /\ fst end21 = Ok tt /\
  manifest (snd end12) = manifest (snd end21) /\
  manifest (snd end12) =
  Document
    (JObj (PyDict.set
             (PyDict.set d "releases"
                         (JObj (PyDict.del (PyDict.del r v1) v2)))
             "updated_at" (JStr t2))).
Proof.
  intros Hrel H1 H2 Hne Hl1 Hl2 run1 end12 end21.
  subst end12 end21 run1. simpl.
  assert (Hm : PyDict.mem d "releases" = true)
    by (apply dict_mem_get; now rewrite Hrel).
  assert (Hm1 : PyDict.mem r v1 = true) by now apply dict_mem_in.
  assert (Hm2 : PyDict.mem r v2 = true) by now apply dict_mem_in.
  rewrite (run_keep_latest max_str_digits script v1 t1 d r Hrel Hm1 Hl1).
  rewrite (run_keep_latest max_str_digits script v2 t1 d r Hrel Hm2 Hl2).
  simpl.
  rewrite (run_keep_latest max_str_digits script v2 t2
             (written d r v1 t1) (PyDict.del r v1));
    [|apply written_releases
     |apply mem_del_other; [assumption | congruence]
     |now rewrite written_latest].
  rewrite (run_keep_latest max_str_digits script v1 t2
             (written d r v2 t1) (PyDict.del r v2));
    [|apply written_releases
     |apply mem_del_other; [assumption | congruence]
     |now rewrite written_latest].
  simpl. rewrite !written_twice by assumption.
  unfold written. rewrite (dict_del_comm _ r v2 v1).
  repeat split.
Qed.

Lemma two_removals_commute_witness :
  let d := three_remaining_manifest in
  let run1 v t f := run 4300 ["unrelease-cli.py"%string; v] t f in
  let end12 := run1 "1.2.0"%string "2024-05-02T08:30:00Z"%string
                 (manifest (snd (run1 "1.0.0"%string
                                      "2024-05-01T12:00:00Z"%string
                                      (Document (JObj d))))) in
  let end21 := run1 "1.0.0"%string "2024-05-02T08:30:00Z"%string
                 (manifest (snd (run1 "1.2.0"%string
                                      "2024-05-01T12:00:00Z"%string
                                      (Document (JObj d))))) in
  fst end12 = Ok tt /\ fst end21 = Ok tt /\
  manifest (snd end12) = manifest (snd end21) /\
  manifest (snd end12) =
  Document
    (JObj (PyDict.set
             (PyDict.set d "releases"
                (JObj (PyDict.del (PyDict.del three_remaining "1.0.0")
                                  "1.2.0")))
             "updated_at" (JStr "2024-05-02T08:30:00Z"))).
Proof.
  refine (two_removals_commute 4300 "unrelease-cli.py" "1.0.0" "1.2.0"
            "2024-05-01T12:00:00Z" "2024-05-02T08:30:00Z"
            three_remaining_manifest three_remaining eq_refl _ _ _ _ _).
  - simpl. tauto.
  - simpl. tauto.
  - discriminate.
  - discriminate.
  - discriminate.
Defined.

(** ** What a run prints *)

(** X12.  A run that ends through [sys.exit] has printed exactly one line,
    on the diagnostic stream, and nothing on standard output; a successful
    run prints nothing on the diagnostic stream, and its output ends with
    the removal line followed by the confirmation. *)
Theorem exit_paths_print_one_diagnostic
        (max_str_digits : nat) (argv : list string) (now : string)
        (f : file_state) :
  let end_ := run max_str_digits argv now f in
  (forall code, fst end_ = Halt (SystemExit code) ->
     code = 1%Z /\
     exists line,
       filter (fun e => match e with OpenRead _ => false | _ => true end)
              (log (snd end_)) = [Stderr line]) /\
  (fst end_ = Ok tt ->
     (forall line, ~ In (Stderr line) (log (snd end_))) /\
     exists pre,
       filter (fun e => match e with Stdout _ => true | _ => false end)
              (log (snd end_)) =
       pre ++ [Stdout (removed_line (nth 1 argv EmptyString));
               Stdout done_line]).
Proof.
  intros end_. subst end_.
  destruct (run_shape max_str_digits argv now f)
    as [Hlen | e out Hlen He Hout | Hlen | d' mid Hlen Hmid]; simpl.
  - split; [|discriminate]. intros code H. injection H as <-.
    split; [reflexivity | now eexists].
  - split; discriminate.
  - split; [|discriminate]. intros code H. injection H as <-.
    split; [reflexivity | now eexists].
  - split; [discriminate|]. intros _.
    destruct Hmid as [-> | [-> | (v & ->)]]; simpl.
    + split; [|now exists []].
      intros line H.
      repeat (destruct H as [H | H]; try discriminate H); destruct H.
    + split; [|now exists [Stdout warning_line]].
      intros line H.
      repeat (destruct H as [H | H]; try discriminate H); destruct H.
    + split; [|now exists [Stdout (updated_latest_line v)]].
      intros line H.
      repeat (destruct H as [H | H]; try discriminate H); destruct H.
Qed.

Lemma exit_paths_print_one_diagnostic_witness :
  let end_ := run 4300 ["unrelease-cli.py"; "2.0.0"]%string
                  "2024-05-01T12:00:00Z"
                  (Document (JObj three_remaining_manifest)) in
  fst end_ = Ok tt /\
  (forall line, ~ In (Stderr line) (log (snd end_))) /\
  exists pre,
    filter (fun e => match e with Stdout _ => true | _ => false end)
           (log (snd end_)) =
    pre ++ [Stdout (removed_line "2.0.0"); Stdout done_line].
Proof.
  intros end_.
  assert (H : fst end_ = Ok tt) by (vm_compute; reflexivity).
  split; [exact H|].
  exact (proj2 (exit_paths_print_one_diagnostic 4300
                  ["unrelease-cli.py"; "2.0.0"]%string
                  "2024-05-01T12:00:00Z"
                  (Document (JObj three_remaining_manifest))) H).
Defined.

(** ** The sorted list of remaining versions *)

(** X13.  [remaining.sort(key=version_key)] rearranges the remaining
    versions without adding, dropping or duplicating any, and leaves them
    in ascending order of their keys: no version is followed, anywhere
    later in the list, by one with a smaller key. *)
Theorem sort_versions_ascending_permutation
        (max_str_digits : nat) (remaining : list string) :
  Permutation (sort_versions max_str_digits remaining) remaining /\
  StronglySorted
    (fun a b => tuple_ltb (version_key max_str_digits b)
                          (version_key max_str_digits a) = false)
    (sort_versions max_str_digits remaining).
Proof.
  split.
  - apply sort_perm.
  - apply sort_sorted.
    + exact tuple_ltb_irrefl.
    + exact tuple_ltb_trans.
    + exact tuple_ltb_ntrans.
Qed.

(** X14.  The order on keys is a strict total order: of two tuples, either
    one is below the other or they are equal, and never two of these at
    once; so any two versions are comparable by their keys. *)
Theorem tuple_order_total (a b : list Z) :
  (tuple_ltb a b = true \/ a = b \/ tuple_ltb b a = true) /\
  (tuple_ltb a b = true -> a <> b /\ tuple_ltb b a = false) /\
  (a = b -> tuple_ltb a b = false /\ tuple_ltb b a = false).
Proof.
  split; [|split].
  - destruct (tuple_ltb a b) eqn:Hab; [now left|].
    destruct (tuple_ltb b a) eqn:Hba; [now right; right|].
    right. left. now apply tuple_ltb_antisym.
  - intros Hab. split.
    + intros ->. rewrite tuple_ltb_irrefl in Hab. discriminate.
    + destruct (tuple_ltb b a) eqn:Hba; [|reflexivity].
      pose proof (tuple_ltb_trans _ _ _ Hab Hba) as H.
      rewrite tuple_ltb_irrefl in H. discriminate.
  - intros ->. now rewrite tuple_ltb_irrefl.
Qed.

Lemma tuple_order_total_witness :
  tuple_ltb [1; 2; 0]%Z [1; 10]%Z = true /\
  [1; 2; 0]%Z <> [1; 10]%Z /\ tuple_ltb [1; 10]%Z [1; 2; 0]%Z = false.
Proof.
  assert (H : tuple_ltb [1; 2; 0]%Z [1; 10]%Z = true) by reflexivity.
  split; [exact H|].
  exact (proj1 (proj2 (tuple_order_total [1; 2; 0]%Z [1; 10]%Z)) H).
Defined.

(** ** Splitting a version at the dots *)

Lemma concat_split (sep : ascii) (s : string) :
  String.concat (String sep EmptyString) (PyStr.split sep s) = s.
Proof.
  induction s as [|c s IH]; [reflexivity|]. simpl.
  destruct (Ascii.eqb_spec c sep) as [->|Hne].
  - pose proof (split_not_nil sep s) as Hnil.
    destruct (PyStr.split sep s) as [|w ws]; [contradiction|].
    simpl in *. now rewrite IH.
  - pose proof (split_not_nil sep s) as Hnil.
    destruct (PyStr.split sep s) as [|w ws]; [contradiction|].
    destruct ws as [|w' ws]; simpl in *; now rewrite <- IH.
Qed.

Lemma split_dot_free_parts (s : string) :
  Forall (fun c => dot_free c = true) (PyStr.split "." s).
Proof.
  induction s as [|c s IH]; simpl; [now repeat constructor|].
  destruct (Ascii.eqb c ".") eqn:E.
  - constructor; [reflexivity | assumption].
  - destruct (PyStr.split "." s) as [|w ws]; simpl.
    + repeat constructor. simpl. now rewrite E.
    + inversion IH as [|? ? Hw Hws]; subst.
      constructor; [|assumption]. simpl. now rewrite E, Hw.
Qed.

Lemma split_dot_free (s : string) :
  dot_free s = true -> PyStr.split "." s = [s].
Proof.
  induction s as [|c s IH]; simpl; [reflexivity|].
  destruct (Ascii.eqb c "."); simpl; [discriminate|].
  intros H. now rewrite IH.
Qed.

Lemma split_app_dot (x rest : string) :
  dot_free x = true ->
  PyStr.split "." (x ++ String "." rest) = x :: PyStr.split "." rest.
Proof.
  induction x as [|c x IH]; simpl; [reflexivity|].
  destruct (Ascii.eqb c "."); simpl; [discriminate|].
  intros H. now rewrite IH.
Qed.

(** X15.  [v.split('.')] loses nothing of the version: there is always at
    least one component, no component contains a dot, and joining the
    components with dots gives the version back. *)
Theorem split_join_round_trip (v : string) :
  PyStr.split "." v <> [] /\
  Forall (fun c => dot_free c = true) (PyStr.split "." v) /\
  String.concat "." (PyStr.split "." v) = v.
Proof.
  split; [apply split_not_nil|].
  split; [apply split_dot_free_parts | apply concat_split].
Qed.

Lemma join_split_round_trip_aux (comps : list string) :
  comps <> [] ->
  Forall (fun c => dot_free c = true) comps ->
  PyStr.split "." (String.concat "." comps) = comps.
Proof.
  intros Hne Hall. induction Hall as [|x l Hx Hl IH]; [contradiction|].
  destruct l as [|y l].
  - simpl. now apply split_dot_free.
  - change (String.concat "." (x :: y :: l))
      with (x ++ String "." (String.concat "." (y :: l)))%string.
    rewrite split_app_dot by assumption.
    rewrite IH by discriminate. reflexivity.
Qed.

(** X16.  Conversely, a version written as one or more dot-free components
    joined by dots splits into exactly those components. *)
Theorem join_split_round_trip (comps : list string) :
  comps <> [] ->
  Forall (fun c => dot_free c = true) comps ->
  PyStr.split "." (String.concat "." comps) = comps.
Proof.
  exact (join_split_round_trip_aux comps).
Qed.

Lemma join_split_round_trip_witness :
  ["1"; "12"; "0-rc1"]%string <> [] /\
  Forall (fun c => dot_free c = true) ["1"; "12"; "0-rc1"]%string /\
  PyStr.split "." (String.concat "." ["1"; "12"; "0-rc1"]%string) =
  ["1"; "12"; "0-rc1"]%string.
Proof.
  assert (Hne : ["1"; "12"; "0-rc1"]%string <> []) by discriminate.
  assert (Hall : Forall (fun c => dot_free c = true)
                        ["1"; "12"; "0-rc1"]%string)
    by (repeat constructor).
  split; [exact Hne|]. split; [exact Hall|].
  exact (join_split_round_trip ["1"; "12"; "0-rc1"]%string Hne Hall).
Defined.

(** ** What [int] accepts *)

Lemma skip_spaces_in (a : ascii) (s : string) :
  PyStr.is_space a = false ->
  In a (list_ascii_of_string s) ->
  In a (list_ascii_of_string (PyStr.skip_spaces s)).
Proof.
  intros Ha. induction s as [|c s IH]; simpl; [tauto|].
  destruct (PyStr.is_space c) eqn:Hc; [|simpl; tauto].
  intros [-> | H]; [congruence | now apply IH].
Qed.

Lemma read_sign_other (c : ascii) (s : string) :
  c <> "+"%char -> c <> "-"%char ->
  PyStr.read_sign (String c s) = (1%Z, String c s).
Proof.
  intros Hp Hm.
  destruct c as [[] [] [] [] [] [] [] []];
    solve [reflexivity
          | exfalso; apply Hp; reflexivity
          | exfalso; apply Hm; reflexivity].
Qed.

Lemma read_sign_in (a : ascii) (s : string) :
  a <> "+"%char -> a <> "-"%char ->
  In a (list_ascii_of_string s) ->
  In a (list_ascii_of_string (snd (PyStr.read_sign s))).
Proof.
  intros Hp Hm. destruct s as [|c s]; [simpl; tauto|].
  destruct (Ascii.eqb_spec c "+") as [->|Hcp];
    [simpl; intros [H | H]; [congruence | assumption]|].
  destruct (Ascii.eqb_spec c "-") as [->|Hcm];
    [simpl; intros [H | H]; [congruence | assumption]|].
  now rewrite read_sign_other.
Qed.

Lemma scan_digits_in (a : ascii) (s : string) :
  is_digit a = false -> a <> "_"%char ->
  forall (p : bool) (acc : Z) (n : nat) (v : Z) (n' : nat) (rest : string),
    PyStr.scan_digits p acc n s = Some (v, n', rest) ->
    In a (list_ascii_of_string s) ->
    In a (list_ascii_of_string rest).
Proof.
  intros Hd Hu. unfold is_digit in Hd.
  induction s as [|c s IH]; intros p acc n v n' rest; simpl; [tauto|].
  destruct (Ascii.eqb_spec c "_") as [->|Hc].
  - destruct p; [discriminate|].
    intros H [Ha | Ha]; [congruence | now apply IH in H].
  - destruct (PyStr.digit_value c) eqn:Hdc.
    + intros H [Ha | Ha]; [|now apply IH in H].
      subst c. now rewrite Hdc in Hd.
    + destruct p; [discriminate|].
      intros H. injection H as _ _ <-. simpl. tauto.
Qed.

(** A text holding a character that no base-ten literal contains is
    rejected by the parser. *)
Lemma parse_int_foreign_char (max_str_digits : nat) (a : ascii) (s : string) :
  is_digit a = false -> PyStr.is_space a = false ->
  a <> "+"%char -> a <> "-"%char -> a <> "_"%char ->
  In a (list_ascii_of_string s) ->
  PyStr.parse_int max_str_digits s = None.
Proof.
  intros Hd Hs Hp Hm Hu Hin. unfold PyStr.parse_int.
  apply (skip_spaces_in a s Hs) in Hin.
  apply (read_sign_in a _ Hp Hm) in Hin.
  destruct (PyStr.read_sign (PyStr.skip_spaces s)) as [sign body].
  simpl in Hin.
  destruct (PyStr.starts_with_underscore body); [reflexivity|].
  destruct (PyStr.scan_digits false 0 0 body) as [[[v n] rest]|] eqn:Hscan;
    [|reflexivity].
  apply (scan_digits_in a body Hd Hu _ _ _ _ _ _ Hscan) in Hin.
  apply (skip_spaces_in a rest Hs) in Hin.
  destruct (n =? 0)%nat; [reflexivity|].
  destruct (_ && _ && _); [reflexivity|].
  destruct (PyStr.skip_spaces rest); [destruct Hin | reflexivity].
Qed.

(** An ASCII byte of a string is one of its characters, wherever it
    stands. *)
Lemma decode_ascii_in (a : ascii) (s : string) :
  (N_of_ascii a < 128)%N ->
  In a (list_ascii_of_string s) ->
  forall (pending : nat) (acc least : N),
    In (N_of_ascii a) (PyStr.decode pending acc least s).
Proof.
  intros Ha. induction s as [|c s IH]; [intros []|].
  intros Hin pending acc least. cbn [PyStr.decode].
  destruct Hin as [-> | Hin].
  - assert (Hc : PyStr.classify (N_of_ascii a) = PyStr.Single (N_of_ascii a)).
    { unfold PyStr.classify.
      destruct (N.ltb_spec (N_of_ascii a) 128); [reflexivity | lia]. }
    assert (Hk : PyStr.is_continuation (N_of_ascii a) = false).
    { unfold PyStr.is_continuation. apply andb_false_iff. left.
      apply N.leb_gt. exact Ha. }
    rewrite Hc, Hk.
    destruct pending; simpl; auto.
  - specialize (IH Hin).
    destruct (PyStr.classify (N_of_ascii c)), pending as [|[|p]];
      try destruct (PyStr.is_continuation (N_of_ascii c));
      simpl; auto.
Qed.

(** Making a text ASCII keeps a foreign ASCII character, or ends the text
    with a question mark before it. *)
Lemma to_ascii_foreign (a : ascii) (cps : list N) :
  (N_of_ascii a < 128)%N ->
  is_digit a = false -> PyStr.is_space a = false ->
  a <> "+"%char -> a <> "-"%char -> a <> "_"%char ->
  In (N_of_ascii a) cps ->
  exists b : ascii,
    is_digit b = false /\ PyStr.is_space b = false /\
    b <> "+"%char /\ b <> "-"%char /\ b <> "_"%char /\
    In b (list_ascii_of_string (PyStr.to_ascii cps)).
Proof.
  intros Ha Hd Hs Hp Hm Hu.
  assert (Hq : exists b : ascii,
             is_digit b = false /\ PyStr.is_space b = false /\
             b <> "+"%char /\ b <> "-"%char /\ b <> "_"%char /\
             In b (list_ascii_of_string "?"))
    by (exists "?"%char; repeat split; try discriminate; now left).
  induction cps as [|cp cps IH]; [intros []|].
  intros Hin. cbn [PyStr.to_ascii].
  assert (Hrest : In (N_of_ascii a) cps ->
                  forall c : ascii,
                  exists b : ascii,
                    is_digit b = false /\ PyStr.is_space b = false /\
                    b <> "+"%char /\ b <> "-"%char /\ b <> "_"%char /\
                    In b (list_ascii_of_string
                            (String c (PyStr.to_ascii cps)))).
  { intros H c. destruct (IH H) as (b & ? & ? & ? & ? & ? & Hb).
    exists b. repeat split; try assumption. now right. }
  destruct (N.ltb_spec cp 127) as [Hlt | Hge].
  - destruct Hin as [-> | Hin]; [|now apply Hrest].
    exists a. repeat split; try assumption.
    left. apply ascii_N_embedding.
  - destruct Hin as [-> | Hin].
    + assert (E : N_of_ascii a = 127%N) by lia. rewrite E. exact Hq.
    + destruct (PyStr.is_unicode_space cp); [now apply Hrest|].
      destruct (PyStr.to_decimal cp); [now apply Hrest | exact Hq].
Qed.

(** A component holding an ASCII character that no base-ten literal
    contains is rejected by [int]. *)
Lemma int_foreign_char (max_str_digits : nat) (a : ascii) (s : string) :
  (N_of_ascii a < 128)%N ->
  is_digit a = false -> PyStr.is_space a = false ->
  a <> "+"%char -> a <> "-"%char -> a <> "_"%char ->
  In a (list_ascii_of_string s) ->
  PyStr.int max_str_digits s = None.
Proof.
  intros Ha Hd Hs Hp Hm Hu Hin. unfold PyStr.int.
  destruct (PyStr.is_ascii s).
  - now apply parse_int_foreign_char with a.
  - pose proof (decode_ascii_in a s Ha Hin 0%nat 0%N 0%N) as Hcp.
    destruct (to_ascii_foreign a _ Ha Hd Hs Hp Hm Hu Hcp)
      as (b & Hbd & Hbs & Hbp & Hbm & Hbu & Hb).
    now apply parse_int_foreign_char with b.
Qed.

Lemma split_in_char (a sep : ascii) (s : string) :
  a <> sep ->
  In a (list_ascii_of_string s) ->
  exists c, In c (PyStr.split sep s) /\ In a (list_ascii_of_string c).
Proof.
  intros Hne. induction s as [|c s IH]; simpl; [tauto|].
  destruct (Ascii.eqb_spec c sep) as [->|Hc].
  - intros [H | H]; [congruence|].
    destruct (IH H) as (w & Hw & Ha). exists w. split; [now right | exact Ha].
  - pose proof (split_not_nil sep s) as Hnil.
    destruct (PyStr.split sep s) as [|w ws]; [contradiction|].
    intros [-> | H].
    + exists (String a w). split; [now left | now left].
    + destruct (IH H) as (w' & [<- | Hw'] & Ha).
      * exists (String c w). split; [now left | now right].
      * exists w'. split; [now right | exact Ha].
Qed.

Lemma ints_none (max_str_digits : nat) (cs : list string) (c : string) :
  In c cs -> PyStr.int max_str_digits c = None ->
  ints max_str_digits cs = None.
Proof.
  intros Hin Hc. induction cs as [|x cs IH]; [destruct Hin|]. simpl.
  destruct Hin as [-> | Hin]; [now rewrite Hc|].
  destruct (PyStr.int max_str_digits x); [|reflexivity].
  now rewrite IH.
Qed.

(** X17.  A version that contains an ASCII character other than a decimal
    digit, a dot, white space, a sign or an underscore (a letter, say, as
    in a [v] prefix or a pre-release suffix) gets the fallback key
    [(0, 0, 0)], whatever its other components are.  (Outside ASCII,
    [int] also reads the digits and spaces of other scripts.) *)
Theorem foreign_character_gives_fallback_key
        (max_str_digits : nat) (v : string) (a : ascii) :
  In a (list_ascii_of_string v) ->
  (N_of_ascii a < 128)%N ->
  is_digit a = false -> PyStr.is_space a = false ->
  a <> "."%char -> a <> "+"%char -> a <> "-"%char -> a <> "_"%char ->
  version_key max_str_digits v = fallback_key.
Proof.
  intros Hin H128 Hd Hs Hdot Hp Hm Hu. unfold version_key.
  destruct (split_in_char a "." v Hdot Hin) as (c & Hc & Ha).
  rewrite (ints_none max_str_digits _ c Hc); [reflexivity|].
  now apply int_foreign_char with a.
Qed.

Lemma foreign_character_gives_fallback_key_witness :
  In "b"%char (list_ascii_of_string "9.9.9-beta") /\
  version_key 4300 "9.9.9-beta" = fallback_key.
Proof.
  assert (Hin : In "b"%char (list_ascii_of_string "9.9.9-beta"))
    by (simpl; tauto).
  split; [exact Hin|].
  refine (foreign_character_gives_fallback_key 4300 "9.9.9-beta" "b"
            Hin eq_refl eq_refl eq_refl _ _ _ _); discriminate.
Defined.

(** X18.  A version with an empty component (the empty string, a leading
    or trailing dot, two dots in a row) gets the fallback key
    [(0, 0, 0)]: [int] rejects the empty string. *)
Theorem empty_component_gives_fallback_key
        (max_str_digits : nat) (v : string) :
  In EmptyString (PyStr.split "." v) ->
  version_key max_str_digits v = fallback_key.
Proof.
  intros Hin. unfold version_key.
  now rewrite (ints_none max_str_digits _ EmptyString Hin).
Qed.

Lemma empty_component_gives_fallback_key_witness :
  In EmptyString (PyStr.split "." "3.1.") /\
  version_key 4300 "3.1." = fallback_key.
Proof.
  assert (Hin : In EmptyString (PyStr.split "." "3.1."))
    by (simpl; tauto).
  split; [exact Hin|].
  exact (empty_component_gives_fallback_key 4300 "3.1." Hin).
Defined.

(** ** Plain decimal versions *)

Lemma digit_code (c : ascii) :
  is_digit c = true -> (48 <= N_of_ascii c <= 57)%N.
Proof.
  unfold is_digit, PyStr.digit_value.
  destruct (48 <=? N_of_ascii c)%N eqn:H1; simpl; [|discriminate].
  destruct (N_of_ascii c <=? 57)%N eqn:H2; simpl; [|discriminate].
  intros _. apply N.leb_le in H1. apply N.leb_le in H2. lia.
Qed.

Lemma digit_not (c x : ascii) :
  is_digit c = true -> (N_of_ascii x < 48)%N \/ (57 < N_of_ascii x)%N ->
  c <> x.
Proof.
  intros Hd Hx ->. apply digit_code in Hd. lia.
Qed.

Lemma digit_not_space (c : ascii) :
  is_digit c = true -> PyStr.is_space c = false.
Proof.
  intros Hd. apply digit_code in Hd. unfold PyStr.is_space.
  apply orb_false_iff. split.
  - apply andb_false_iff. right. apply N.leb_gt. lia.
  - apply N.eqb_neq. lia.
Qed.

Lemma all_digits_dot_free (s : string) :
  all_digits s = true -> dot_free s = true.
Proof.
  induction s as [|c s IH]; simpl; [reflexivity|].
  intros H. apply andb_true_iff in H. destruct H as [Hc Hs].
  rewrite (IH Hs), andb_true_r.
  apply negb_true_iff. apply Ascii.eqb_neq.
  apply (digit_not c "." Hc). left. reflexivity.
Qed.

Lemma scan_all_digits (s : string) :
  all_digits s = true ->
  forall (acc : Z) (n : nat),
    PyStr.scan_digits false acc n s =
    Some (decimal_from acc s, (n + String.length s)%nat, EmptyString).
Proof.
  induction s as [|c s IH]; simpl; intros H acc n.
  - now rewrite Nat.add_0_r.
  - apply andb_true_iff in H. destruct H as [Hc Hs].
    assert (Hu : Ascii.eqb c "_" = false).
    { apply Ascii.eqb_neq. apply (digit_not c "_" Hc). right. reflexivity. }
    rewrite Hu. unfold is_digit in Hc.
    destruct (PyStr.digit_value c) as [d|]; [|discriminate].
    rewrite (IH Hs). now rewrite Nat.add_succ_r.
Qed.

Lemma all_digits_ascii (s : string) :
  all_digits s = true -> PyStr.is_ascii s = true.
Proof.
  induction s as [|c s IH]; simpl; [reflexivity|].
  intros H. apply andb_true_iff in H. destruct H as [Hc Hs].
  rewrite (IH Hs), andb_true_r. apply digit_code in Hc.
  apply N.ltb_lt. lia.
Qed.

(** [int] on a string of decimal digits: no space, sign or underscore is
    involved and the value is the positional one. *)
Lemma int_all_digits (max_str_digits : nat) (s : string) :
  s <> EmptyString -> all_digits s = true ->
  (String.length s <= 640)%nat ->
  PyStr.int max_str_digits s = Some (decimal_value s).
Proof.
  intros Hne Hall Hlen. destruct s as [|c s]; [contradiction|].
  assert (Hc : is_digit c = true)
    by (simpl in Hall; now apply andb_true_iff in Hall).
  unfold PyStr.int. rewrite (all_digits_ascii _ Hall).
  unfold PyStr.parse_int.
  assert (Hskip : PyStr.skip_spaces (String c s) = String c s)
    by (simpl; now rewrite (digit_not_space c Hc)).
  rewrite Hskip.
  rewrite read_sign_other;
    [|apply (digit_not c "+" Hc); left; reflexivity
     |apply (digit_not c "-" Hc); left; reflexivity].
  assert (Hu : PyStr.starts_with_underscore (String c s) = false).
  { simpl. apply Ascii.eqb_neq. apply (digit_not c "_" Hc).
    right. reflexivity. }
  rewrite Hu, (scan_all_digits _ Hall).
  change (0 + String.length (String c s))%nat
    with (S (String.length s)).
  change (S (String.length s) =? 0)%nat with false.
  assert (Hlim : (640 <? S (String.length s))%nat = false)
    by (apply Nat.ltb_ge; exact Hlen).
  rewrite Hlim. simpl andb. cbv iota.
  change (PyStr.skip_spaces EmptyString) with EmptyString. cbv iota.
  unfold decimal_value. now rewrite Z.mul_1_l.
Qed.

Lemma ints_all_digits (max_str_digits : nat) (comps : list string) :
  Forall (fun c => c <> EmptyString /\ all_digits c = true /\
                   (String.length c <= 640)%nat) comps ->
  ints max_str_digits comps = Some (map decimal_value comps).
Proof.
  induction 1 as [|c l (Hne & Hall & Hlen) _ IH]; [reflexivity|]. simpl.
  now rewrite (int_all_digits max_str_digits c Hne Hall Hlen), IH.
Qed.

(** X19.  For a version made of one or more non-empty runs of decimal
    digits joined by dots (each of at most 640 digits, below which no digit
    limit applies), [version_key] is the tuple of the numbers the runs
    denote, one per component and in the same order; leading zeros do not
    matter. *)
Theorem numeric_version_key
        (max_str_digits : nat) (comps : list string) :
  comps <> [] ->
  Forall (fun c => c <> EmptyString /\ all_digits c = true /\
                   (String.length c <= 640)%nat) comps ->
  version_key max_str_digits (String.concat "." comps) =
  map decimal_value comps.
Proof.
  intros Hne Hall. unfold version_key.
  rewrite join_split_round_trip_aux; [|assumption|].
  - now rewrite ints_all_digits.
  - eapply Forall_impl; [|exact Hall].
    intros c (_ & Hc & _). now apply all_digits_dot_free.
Qed.

Lemma numeric_version_key_witness :
  ["1"; "02"; "30"]%string <> [] /\
  version_key 4300 (String.concat "." ["1"; "02"; "30"]%string) =
  map decimal_value ["1"; "02"; "30"]%string.
Proof.
  assert (Hne : ["1"; "02"; "30"]%string <> []) by discriminate.
  split; [exact Hne|].
  refine (numeric_version_key 4300 ["1"; "02"; "30"]%string Hne _).
  repeat constructor; simpl; try discriminate; lia.
Defined.

(** ** The time stamp *)

Lemma digit_char_code (n : N) :
  (n < 10)%N -> N_of_ascii (digit_char n) = (48 + n)%N.
Proof.
  intros H. unfold digit_char. apply N_ascii_embedding. lia.
Qed.

Lemma digit_char_digit (n : N) : (n < 10)%N -> is_digit (digit_char n) = true.
Proof.
  intros H. unfold is_digit, PyStr.digit_value.
  rewrite (digit_char_code n H).
  destruct (N.leb_spec 48 (48 + n)); [|lia].
  destruct (N.leb_spec (48 + n) 57); [reflexivity | lia].
Qed.

Lemma digit_char_inj (n m : N) :
  (n < 10)%N -> (m < 10)%N -> digit_char n = digit_char m -> n = m.
Proof.
  intros Hn Hm H. apply (f_equal N_of_ascii) in H.
  rewrite !digit_char_code in H by assumption. lia.
Qed.

Lemma pad2_inj (n m : N) :
  (n < 100)%N -> (m < 100)%N -> pad2 n = pad2 m -> n = m.
Proof.
  intros Hn Hm H. unfold pad2 in H. injection H as H1 H0.
  apply digit_char_inj in H1;
    [|apply N.Div0.div_lt_upper_bound; lia ..].
  apply digit_char_inj in H0; [|apply N.mod_lt; lia ..].
  rewrite (N.div_mod n 10), (N.div_mod m 10) by lia. lia.
Qed.

Lemma pad4_inj (n m : N) :
  (n < 10000)%N -> (m < 10000)%N -> pad4 n = pad4 m -> n = m.
Proof.
  intros Hn Hm H. unfold pad4 in H. injection H as H3 H2 H1 H0.
  apply digit_char_inj in H3;
    [|apply N.Div0.div_lt_upper_bound; lia ..].
  apply digit_char_inj in H2; [|apply N.mod_lt; lia ..].
  apply digit_char_inj in H1; [|apply N.mod_lt; lia ..].
  apply digit_char_inj in H0; [|apply N.mod_lt; lia ..].
  pose proof (N.div_mod n 10). pose proof (N.div_mod m 10).
  pose proof (N.div_mod (n / 10) 10). pose proof (N.div_mod (m / 10) 10).
  pose proof (N.div_mod (n / 100) 10). pose proof (N.div_mod (m / 100) 10).
  assert (E1 : (n / 100 = n / 10 / 10)%N)
    by (rewrite N.Div0.div_div; reflexivity).
  assert (E2 : (m / 100 = m / 10 / 10)%N)
    by (rewrite N.Div0.div_div; reflexivity).
  assert (E3 : (n / 1000 = n / 100 / 10)%N)
    by (rewrite N.Div0.div_div; reflexivity).
  assert (E4 : (m / 1000 = m / 100 / 10)%N)
    by (rewrite N.Div0.div_div; reflexivity).
  lia.
Qed.

Ltac digit_bound :=
  first [apply N.mod_lt; lia | apply N.Div0.div_lt_upper_bound; lia].

(** The time stamp of a clock reading from the year 1000 on has the fixed
    20-character shape. *)
Lemma strftime_has_shape (t : datetime) :
  datetime_ok t ->
  has_shape "dddd-dd-ddTdd:dd:ddZ" (strftime t) = true /\
  String.length (strftime t) = 20%nat.
Proof.
  intros (Hy & Hmo & Hd & Hh & Hmi & Hs).
  unfold strftime, pad4, pad2.
  repeat match goal with
         | |- context [digit_char ?n] =>
             let H := fresh "H" in
             assert (H : is_digit (digit_char n) = true)
               by (apply digit_char_digit; digit_bound);
             let c := fresh "c" in
             set (c := digit_char n) in *; clearbody c
         end.
  simpl.
  repeat match goal with
         | H : is_digit _ = true |- _ => rewrite H; clear H
         end.
  split; reflexivity.
Qed.

(** X20.  A successful run at a clock reading from the year 1000 on
    writes an [updated_at] of the fixed 20-character shape
    [dddd-dd-ddTdd:dd:ddZ]: every field of the reading zero-padded to its
    width, the separators where the format string puts them. *)
Theorem run_at_stamp_shape
        (max_str_digits : nat) (argv : list string) (t : datetime)
        (f : file_state) :
  datetime_ok t ->
  fst (run_at max_str_digits argv t f) = Ok tt ->
  exists d' stamp,
    manifest (snd (run_at max_str_digits argv t f)) = Document (JObj d') /\
    PyDict.get d' "updated_at" = Some (JStr stamp) /\
    stamp = strftime t /\
    has_shape "dddd-dd-ddTdd:dd:ddZ" stamp = true /\
    String.length stamp = 20%nat.
Proof.
  unfold run_at. intros Ht H.
  destruct (run_ok_fst _ _ _ _ H)
    as (script & version & d & r & d0 & _ & _ & _ & _ & Hw & _).
  eexists. exists (strftime t). split; [exact Hw|].
  split; [unfold written; apply dict_get_set_same|].
  split; [reflexivity|]. now apply strftime_has_shape.
Qed.

Lemma run_at_stamp_shape_witness :
  datetime_ok (Datetime 2024 5 1 12 0 7) /\
  exists d' stamp,
    manifest (snd (run_at 4300 ["unrelease-cli.py"; "1.1.5"]%string
                          (Datetime 2024 5 1 12 0 7)
                          (Document (JObj three_remaining_manifest))))
    = Document (JObj d') /\
    PyDict.get d' "updated_at" = Some (JStr stamp) /\
    stamp = strftime (Datetime 2024 5 1 12 0 7) /\
    has_shape "dddd-dd-ddTdd:dd:ddZ" stamp = true /\
    String.length stamp = 20%nat.
Proof.
  assert (H : datetime_ok (Datetime 2024 5 1 12 0 7))
    by (unfold datetime_ok; simpl; lia).
  split; [exact H|].
  refine (run_at_stamp_shape 4300 ["unrelease-cli.py"; "1.1.5"]%string
            (Datetime 2024 5 1 12 0 7)
            (Document (JObj three_remaining_manifest)) H _).
  vm_compute. reflexivity.
Defined.

(** X21.  Two different clock readings (from the year 1000 on) never get
    the same time stamp: the six fields can be read back from it. *)
Theorem strftime_injective (t t' : datetime) :
  datetime_ok t -> datetime_ok t' ->
  t <> t' -> strftime t <> strftime t'.
Proof.
  destruct t as [y mo d h mi s], t' as [y' mo' d' h' mi' s'].
  unfold datetime_ok. cbn [year month day hour minute second].
  intros (Hy & Hmo & Hd & Hh & Hmi & Hs) (Hy' & Hmo' & Hd' & Hh' & Hmi' & Hs').
  intros Hne H. apply Hne. clear Hne.
  unfold strftime in H. cbn [year month day hour minute second] in H.
  unfold pad4, pad2 in H. cbn [append] in H.
  injection H; intros.
  assert (Ey : y = y')
    by (apply pad4_inj; [lia | lia | unfold pad4; congruence]).
  assert (Emo : mo = mo')
    by (apply pad2_inj; [lia | lia | unfold pad2; congruence]).
  assert (Ed : d = d')
    by (apply pad2_inj; [lia | lia | unfold pad2; congruence]).
  assert (Eh : h = h')
    by (apply pad2_inj; [lia | lia | unfold pad2; congruence]).
  assert (Emi : mi = mi')
    by (apply pad2_inj; [lia | lia | unfold pad2; congruence]).
  assert (Es : s = s')
    by (apply pad2_inj; [lia | lia | unfold pad2; congruence]).
  now subst.
Qed.

Lemma strftime_injective_witness :
  datetime_ok (Datetime 2024 5 1 12 0 7) /\
  datetime_ok (Datetime 2024 5 1 12 7 0) /\
  Datetime 2024 5 1 12 0 7 <> Datetime 2024 5 1 12 7 0 /\
  strftime (Datetime 2024 5 1 12 0 7) <> strftime (Datetime 2024 5 1 12 7 0).
Proof.
  assert (H : datetime_ok (Datetime 2024 5 1 12 0 7))
    by (unfold datetime_ok; simpl; lia).
  assert (H' : datetime_ok (Datetime 2024 5 1 12 7 0))
    by (unfold datetime_ok; simpl; lia).
  assert (Hne : Datetime 2024 5 1 12 0 7 <> Datetime 2024 5 1 12 7 0)
    by discriminate.
  split; [exact H|]. split; [exact H'|]. split; [exact Hne|].
  exact (strftime_injective _ _ H H' Hne).
Defined.

(** ** The line that announces the new [latest] *)

(** X22.  When [latest] is recomputed, the run prints, in this order, the
    line naming the new [latest], the removal line and the confirmation,
    and nothing else; the version the first line names is the one written
    to [latest], and it is a key of the [releases] that is written, so
    after a recompute [latest] always names an existing release. *)
Theorem recompute_announces_written_latest
        (max_str_digits : nat) (script version now : string)
        (d r : PyDict.dict json) :
  PyDict.get d "latest" = Some (JStr version) ->
  PyDict.get d "releases" = Some (JObj r) ->
  In version (PyDict.keys r) ->
  others (PyDict.keys r) version <> [] ->
  exists (newest : string) (d' r' : PyDict.dict json),
    run max_str_digits [script; version] now (Document (JObj d)) =
    (Ok tt,
     World (Document (JObj d'))
           [OpenRead manifest_path; Stdout (updated_latest_line newest);
            Stdout (removed_line version);
            OpenWrite manifest_path; Stdout done_line]) /\
    PyDict.get d' "latest" = Some (JStr newest) /\
    PyDict.get d' "releases" = Some (JObj r') /\
    In newest (PyDict.keys r') /\
    newest <> version.
Proof.
  intros Hl Hr Hin Hne.
  apply dict_mem_in in Hin.
  pose proof (newest_last_greatest max_str_digits _ Hne) as Hg.
  apply last_greatest_in in Hg.
  set (newest := last _ _) in Hg.
  exists newest. eexists. exists (PyDict.del r version).
  split; [exact (run_new_latest _ script _ now _ _ Hr Hin Hl Hne)|].
  split; [rewrite written_latest; apply dict_get_set_same|].
  split; [apply written_releases|].
  split; [now rewrite dict_keys_del|].
  apply others_in in Hg. tauto.
Qed.

Lemma recompute_announces_written_latest_witness :
  exists (newest : string) (d' r' : PyDict.dict json),
    run 4300 ["unrelease-cli.py"; "2.0.0"]%string "2024-05-01T12:00:00Z"
        (Document (JObj three_remaining_manifest)) =
    (Ok tt,
     World (Document (JObj d'))
           [OpenRead manifest_path; Stdout (updated_latest_line newest);
            Stdout (removed_line "2.0.0");
            OpenWrite manifest_path; Stdout done_line]) /\
    PyDict.get d' "latest" = Some (JStr newest) /\
    PyDict.get d' "releases" = Some (JObj r') /\
    In newest (PyDict.keys r') /\
    newest <> "2.0.0"%string.
Proof.
  refine (recompute_announces_written_latest 4300 "unrelease-cli.py"
            "2.0.0" "2024-05-01T12:00:00Z" three_remaining_manifest
            three_remaining eq_refl eq_refl _ _).
  - simpl. tauto.
  - discriminate.
Defined.

(** ** A standard output that cannot encode every line *)

Ltac no_write :=
  let H := fresh in
  intros ? H; simpl in H;
  repeat (destruct H as [H | H]; [discriminate H|]); destruct H.

Ltac early :=
  left; eexists; simpl; repeat split; try reflexivity; no_write.

(** The three ways a run can end with respect to the write: before it,
    with the file as it was; after it, at the confirmation that standard
    output cannot encode; or normally. *)
Lemma run_on_shape (max_str_digits : nat) (can_encode : string -> bool)
      (argv : list string) (now : string) (f : file_state) :
  let end_ := run_on max_str_digits can_encode argv now f in
  (exists s, fst end_ = Halt s /\ exit_status (fst end_) = 1%Z /\
             manifest (snd end_) = f /\
             forall path, ~ In (OpenWrite path) (log (snd end_)))
  \/ (fst end_ = Halt (Uncaught UnicodeEncodeError) /\
      can_encode done_line = false /\
      manifest (snd end_) <> f /\
      exists pre, log (snd end_) = pre ++ [OpenWrite manifest_path] /\
                  forall path, ~ In (OpenWrite path) pre)
  \/ (fst end_ = Ok tt /\
      can_encode done_line = true /\
      exists pre,
        log (snd end_) = pre ++ [OpenWrite manifest_path; Stdout done_line] /\
        forall path, ~ In (OpenWrite path) pre).
Proof.
  intros end_. subst end_.
  destruct (Nat.eq_dec (List.length argv) 2) as [Hlen|Hlen].
  2:{ unfold run_on, main_on.
      destruct (Nat.eqb_spec (List.length argv) 2); [contradiction|].
      early. }
  destruct argv as [|script [|version [|? ?]]]; try discriminate. clear Hlen.
  destruct f as [| | | |j];
    [unfold run_on, main_on, bind; simpl; early ..|].
  destruct j as [| | | | | |d];
    [unfold run_on, main_on, bind; simpl; early ..|].
  destruct (PyDict.get d "releases") as [rel|] eqn:Hrel;
    [|unfold run_on, main_on, bind; simpl; rewrite Hrel; simpl; early].
  destruct rel as [| | | |t|xs|r].
  1-4: unfold run_on, main_on, bind; simpl; rewrite Hrel; simpl; early.
  - (* releases is a string *)
    unfold run_on, main_on, bind; simpl; rewrite Hrel; simpl.
    destruct (PyStr.contains t version); simpl; [|early].
    destruct (py_eq_str _ version); simpl.
    + unfold update_latest_on, bind; simpl; rewrite Hrel; simpl.
      destruct t; simpl; [|early].
      unfold print_to. destruct (can_encode warning_line); simpl; [|early].
      unfold del_release; simpl; rewrite Hrel; simpl. early.
    + unfold del_release; simpl; rewrite Hrel; simpl. early.
  - (* releases is a list *)
    unfold run_on, main_on, bind; simpl; rewrite Hrel; simpl.
    destruct (existsb _ xs) eqn:Hin; simpl; [|early].
    destruct (py_eq_str _ version); simpl.
    + unfold update_latest_on, bind; simpl; rewrite Hrel; simpl.
      destruct xs; [discriminate|]. simpl. early.
    + unfold del_release; simpl; rewrite Hrel; simpl. early.
  - (* releases is a dict *)
    destruct (PyDict.mem r version) eqn:Hm;
      [|unfold run_on, main_on, bind; simpl; rewrite Hrel; simpl;
        rewrite Hm; simpl; early].
    assert (Hchanged : forall d0 : PyDict.dict json,
               Document (JObj (written d0 r version now))
               <> Document (JObj d)).
    { intros d0 E. injection E as E.
      pose proof (written_releases d0 r version now) as Hw.
      rewrite E, Hrel in Hw. injection Hw as Hw.
      pose proof (dict_mem_del_same _ r version) as Hdel.
      rewrite <- Hw in Hdel. congruence. }
    assert (Hfinish : forall (d0 : PyDict.dict json) (pre : list event),
               PyDict.get d0 "releases" = Some (JObj r) ->
               (forall path, ~ In (OpenWrite path) pre) ->
               forall res,
                 res =
                 (if can_encode (removed_line version)
                  then if can_encode done_line
                       then (Ok tt,
                             World (Document (JObj (written d0 r version now)))
                                   ((pre ++ [Stdout (removed_line version)])
                                      ++ [OpenWrite manifest_path;
                                          Stdout done_line]))
                       else (Halt (Uncaught UnicodeEncodeError),
                             World (Document (JObj (written d0 r version now)))
                                   ((pre ++ [Stdout (removed_line version)])
                                      ++ [OpenWrite manifest_path]))
                  else (Halt (Uncaught UnicodeEncodeError),
                        World (Document (JObj d)) pre)) ->
                 (exists s, fst res = Halt s /\ exit_status (fst res) = 1%Z /\
                            manifest (snd res) = Document (JObj d) /\
                            forall path, ~ In (OpenWrite path) (log (snd res)))
                 \/ (fst res = Halt (Uncaught UnicodeEncodeError) /\
                     can_encode done_line = false /\
                     manifest (snd res) <> Document (JObj d) /\
                     exists pre0,
                       log (snd res) = pre0 ++ [OpenWrite manifest_path] /\
                       forall path, ~ In (OpenWrite path) pre0)
                 \/ (fst res = Ok tt /\
                     can_encode done_line = true /\
                     exists pre0,
                       log (snd res) =
                       pre0 ++ [OpenWrite manifest_path; Stdout done_line] /\
                       forall path, ~ In (OpenWrite path) pre0)).
    { intros d0 pre Hd0 Hpre res ->.
      assert (Hpre' : forall path,
                 ~ In (OpenWrite path)
                   (pre ++ [Stdout (removed_line version)])).
      { intros path H. apply in_app_or in H.
        destruct H as [H | [H | []]]; [now apply Hpre in H | discriminate H]. }
      destruct (can_encode (removed_line version));
        [|left; eexists; simpl; repeat split; assumption].
      destruct (can_encode done_line) eqn:Hdone.
      - right. right. simpl. repeat split. eexists. split; [reflexivity|].
        exact Hpre'.
      - right. left. simpl. repeat split; [apply Hchanged|].
        eexists. split; [reflexivity | exact Hpre']. }
    assert (Hpre0 : forall path, ~ In (OpenWrite path) [OpenRead manifest_path])
      by no_write.
    assert (Ht : truthy (JObj r) = true)
      by (clear - Hm; destruct r; [discriminate | reflexivity]).
    remember (run_on max_str_digits can_encode [script; version] now
                     (Document (JObj d))) as res eqn:Hres.
    unfold run_on, main_on, bind in Hres. simpl in Hres.
    rewrite Hrel in Hres. simpl in Hres. rewrite Hm in Hres. simpl in Hres.
    destruct (py_eq_str _ version) eqn:E; simpl in Hres.
    + unfold update_latest_on, bind in Hres. simpl in Hres.
      rewrite Hrel, Ht in Hres. simpl in Hres.
      destruct (others (PyDict.keys r) version) as [|k ks] eqn:Ho;
        simpl in Hres; unfold print_to in Hres.
      * destruct (can_encode warning_line); simpl in Hres;
          [|subst res; early].
        rewrite (del_release_dict _ _ _ Hrel Hm) in Hres. simpl in Hres.
        apply (Hfinish d [OpenRead manifest_path; Stdout warning_line] Hrel);
          [no_write|].
        rewrite Hres.
        destruct (can_encode (removed_line version)); simpl;
          [|reflexivity].
        destruct (can_encode done_line); reflexivity.
      * set (newest := last _ EmptyString) in Hres.
        destruct (can_encode (updated_latest_line newest)); simpl in Hres;
          [|subst res; early].
        rewrite (del_release_dict _ r version) in Hres;
          [|rewrite dict_get_set_other; [assumption | discriminate]
           |assumption].
        simpl in Hres.
        apply (Hfinish (PyDict.set d "latest" (JStr newest))
                       [OpenRead manifest_path;
                        Stdout (updated_latest_line newest)]);
          [rewrite dict_get_set_other; [exact Hrel | discriminate]
          |no_write|].
        rewrite Hres.
        destruct (can_encode (removed_line version)); simpl;
          [|reflexivity].
        destruct (can_encode done_line); reflexivity.
    + rewrite (del_release_dict _ _ _ Hrel Hm) in Hres. simpl in Hres.
      unfold print_to in Hres.
      apply (Hfinish d [OpenRead manifest_path] Hrel Hpre0).
      rewrite Hres.
      destruct (can_encode (removed_line version)); simpl; [|reflexivity].
      destruct (can_encode done_line); reflexivity.
Qed.

(** X1.  A run that ends with a non-zero exit status leaves the manifest
    file exactly as it was and never opens a file for writing, with one
    exception: on a standard output that cannot encode the confirmation
    line, the last [print] raises [UnicodeEncodeError] after the file has
    been rewritten. *)
Theorem failed_run_leaves_manifest
        (max_str_digits : nat) (can_encode : string -> bool)
        (argv : list string) (now : string) (f : file_state) :
  let end_ := run_on max_str_digits can_encode argv now f in
  exit_status (fst end_) <> 0%Z ->
  (manifest (snd end_) = f /\
   forall path, ~ In (OpenWrite path) (log (snd end_)))
  \/ (can_encode done_line = false /\
      fst end_ = Halt (Uncaught UnicodeEncodeError) /\
      manifest (snd end_) <> f /\
      In (OpenWrite manifest_path) (log (snd end_))).
Proof.
  intros end_ Hst. subst end_.
  destruct (run_on_shape max_str_digits can_encode argv now f)
    as [(s & _ & _ & Hf & Hnw) | [(Hr & Hc & Hf & pre & Hlog & _)
                                 | (Hr & _)]].
  - left. now split.
  - right. repeat split; try assumption.
    rewrite Hlog. apply in_or_app. right. now left.
  - rewrite Hr in Hst. now contradiction Hst.
Qed.

Lemma failed_run_leaves_manifest_witness :
  let end_ := run_on 4300 PyStr.is_ascii
                     ["unrelease-cli.py"; "1.1.5"]%string
                     "2024-05-01T12:00:00Z"
                     (Document (JObj three_remaining_manifest)) in
  exit_status (fst end_) <> 0%Z /\
  ((manifest (snd end_) = Document (JObj three_remaining_manifest) /\
    forall path, ~ In (OpenWrite path) (log (snd end_)))
   \/ (PyStr.is_ascii done_line = false /\
       fst end_ = Halt (Uncaught UnicodeEncodeError) /\
       manifest (snd end_) <> Document (JObj three_remaining_manifest) /\
       In (OpenWrite manifest_path) (log (snd end_)))).
Proof.
  intros end_.
  assert (H : exit_status (fst end_) <> 0%Z) by (vm_compute; discriminate).
  split; [exact H|].
  exact (failed_run_leaves_manifest 4300 PyStr.is_ascii
           ["unrelease-cli.py"; "1.1.5"]%string "2024-05-01T12:00:00Z"
           (Document (JObj three_remaining_manifest)) H).
Defined.

(** X2.  The exit status of a run is 0 or 1.  With status 0 the manifest
    file was opened for writing once, as the last action before the
    confirmation line.  A run that opened the file for writing ends with
    status 0, unless standard output cannot encode the confirmation line
    and the last [print] raises; so, where it can, the status is 0 exactly
    when the file was opened for writing. *)
Theorem exit_status_zero_iff_written
        (max_str_digits : nat) (can_encode : string -> bool)
        (argv : list string) (now : string) (f : file_state) :
  let end_ := run_on max_str_digits can_encode argv now f in
  (exit_status (fst end_) = 0%Z \/ exit_status (fst end_) = 1%Z) /\
  (exit_status (fst end_) = 0%Z ->
   exists pre,
     log (snd end_) = pre ++ [OpenWrite manifest_path; Stdout done_line] /\
     forall path, ~ In (OpenWrite path) pre) /\
  (In (OpenWrite manifest_path) (log (snd end_)) ->
   exit_status (fst end_) = 0%Z \/
   (can_encode done_line = false /\
    fst end_ = Halt (Uncaught UnicodeEncodeError))) /\
  (can_encode done_line = true ->
   (exit_status (fst end_) = 0%Z <->
    In (OpenWrite manifest_path) (log (snd end_)))).
Proof.
  intros end_. subst end_.
  destruct (run_on_shape max_str_digits can_encode argv now f)
    as [(s & Hr & Hst & Hf & Hnw) | [(Hr & Hc & Hf & pre & Hlog & Hpre)
                                    | (Hr & Hc & pre & Hlog & Hpre)]].
  - split; [now right|].
    split; [intros H; rewrite Hst in H; discriminate H|].
    split; [intros H; now apply Hnw in H|].
    intros _. split; [intros H; rewrite Hst in H; discriminate H|].
    intros H. now apply Hnw in H.
  - rewrite Hr. simpl. split; [now right|].
    split; [discriminate|].
    split; [intros _; right; now split|].
    intros H. congruence.
  - rewrite Hr. simpl. split; [now left|].
    split; [intros _; now exists pre|].
    split; [intros _; now left|].
    intros _. split; [intros _|reflexivity].
    rewrite Hlog. apply in_or_app. right. now left.
Qed.

Lemma exit_status_zero_iff_written_witness :
  let end_ := run_on 4300 (fun _ => true)
                     ["unrelease-cli.py"; "1.1.5"]%string
                     "2024-05-01T12:00:00Z"
                     (Document (JObj three_remaining_manifest)) in
  exit_status (fst end_) = 0%Z /\
  In (OpenWrite manifest_path) (log (snd end_)).
Proof.
  intros end_.
  assert (H : exit_status (fst end_) = 0%Z) by (vm_compute; reflexivity).
  split; [exact H|].
  exact (proj1 (proj2 (proj2 (proj2
           (exit_status_zero_iff_written 4300 (fun _ => true)
              ["unrelease-cli.py"; "1.1.5"]%string "2024-05-01T12:00:00Z"
              (Document (JObj three_remaining_manifest))))) eq_refl) H).
Defined.

(** X23.  On a standard output that encodes the removal line but not the
    confirmation line, removing a version that is a key of [releases] and
    is not [latest] rewrites the file without the version and then ends
    with an uncaught [UnicodeEncodeError]: exit status 1, although the
    removal is done. *)
Theorem confirmation_failure_after_write
        (max_str_digits : nat) (can_encode : string -> bool)
        (script version now : string) (d r : PyDict.dict json) :
  PyDict.get d "releases" = Some (JObj r) ->
  In version (PyDict.keys r) ->
  PyDict.get d "latest" <> Some (JStr version) ->
  can_encode (removed_line version) = true ->
  can_encode done_line = false ->
  let end_ := run_on max_str_digits can_encode [script; version] now
                     (Document (JObj d)) in
  fst end_ = Halt (Uncaught UnicodeEncodeError) /\
  exit_status (fst end_) = 1%Z /\
  log (snd end_) = [OpenRead manifest_path; Stdout (removed_line version);
                    OpenWrite manifest_path] /\
  exists d',
    manifest (snd end_) = Document (JObj d') /\
    PyDict.get d' "releases" = Some (JObj (PyDict.del r version)) /\
    PyDict.get d' "updated_at" = Some (JStr now) /\
    PyDict.get d' "latest" = PyDict.get d "latest".
Proof.
  intros Hrel Hin Hl Hrm Hdone end_. subst end_.
  apply dict_mem_in in Hin.
  unfold run_on, main_on, bind. simpl. rewrite Hrel. simpl.
  rewrite Hin. simpl.
  destruct (py_eq_str _ version) eqn:E.
  - apply py_eq_str_true in E.
    destruct (PyDict.get d "latest"); congruence.
  - simpl. rewrite (del_release_dict _ _ _ Hrel Hin). simpl.
    unfold print_to. rewrite Hrm, Hdone. simpl.
    repeat split.
    exists (written d r version now).
    split; [reflexivity|].
    split; [apply written_releases|].
    split; [unfold written; apply dict_get_set_same | apply written_latest].
Qed.

Lemma confirmation_failure_after_write_witness :
  let end_ := run_on 4300 PyStr.is_ascii
                     ["unrelease-cli.py"; "1.1.5"]%string
                     "2024-05-01T12:00:00Z"
                     (Document (JObj three_remaining_manifest)) in
  fst end_ = Halt (Uncaught UnicodeEncodeError) /\
  exit_status (fst end_) = 1%Z /\
  log (snd end_) = [OpenRead manifest_path; Stdout (removed_line "1.1.5");
                    OpenWrite manifest_path] /\
  exists d',
    manifest (snd end_) = Document (JObj d') /\
    PyDict.get d' "releases" =
    Some (JObj (PyDict.del three_remaining "1.1.5")) /\
    PyDict.get d' "updated_at" = Some (JStr "2024-05-01T12:00:00Z") /\
    PyDict.get d' "latest" = PyDict.get three_remaining_manifest "latest".
Proof.
  refine (confirmation_failure_after_write 4300 PyStr.is_ascii
            "unrelease-cli.py" "1.1.5" "2024-05-01T12:00:00Z"
            three_remaining_manifest three_remaining eq_refl _ _
            eq_refl eq_refl).
  - simpl. tauto.
  - discriminate.
Defined.

(** On a standard output that takes every line, this is [run]. *)
Lemma run_on_every_line (max_str_digits : nat) (argv : list string)
      (now : string) (f : file_state) :
  run_on max_str_digits (fun _ => true) argv now f =
  run max_str_digits argv now f.
Proof.
  reflexivity.
Qed.

(** ** When a version that does not convert becomes [latest] *)

Lemma nodup_split_unique {A : Type} (x : A) (b a b0 a0 : list A) :
  NoDup (b ++ x :: a) -> b ++ x :: a = b0 ++ x :: a0 -> b = b0 /\ a = a0.
Proof.
  revert b0. induction b as [|y b IH]; intros b0 Hnd E.
  - destruct b0 as [|y0 b0]; simpl in E.
    + injection E as ->. auto.
    + injection E as <- ->. simpl in Hnd. inversion Hnd as [|? ? Hx _].
      exfalso. apply Hx. apply in_or_app. right. now left.
  - destruct b0 as [|y0 b0]; simpl in E.
    + injection E as -> <-. simpl in Hnd. inversion Hnd as [|? ? Hx _].
      exfalso. apply Hx. apply in_or_app. right. now left.
    + injection E as <- E. simpl in Hnd. inversion Hnd as [|? ? _ Hnd'].
      destruct (IH _ Hnd' E) as [-> ->]. auto.
Qed.

(** X24.  In a recompute over distinct keys, a remaining version with a
    component that does not convert becomes the new [latest] exactly when
    no remaining version before it, in the key order of [releases], has a
    key above (0, 0, 0) and every remaining version after it has a key
    below (0, 0, 0). *)
Theorem non_numeric_chosen_exactly
        (max_str_digits : nat) (script version now : string)
        (d r : PyDict.dict json) (bad c : string)
        (before after : list string) :
  PyDict.get d "latest" = Some (JStr version) ->
  PyDict.get d "releases" = Some (JObj r) ->
  NoDup (PyDict.keys r) ->
  In version (PyDict.keys r) ->
  PyDict.keys r = before ++ bad :: after ->
  bad <> version ->
  In c (PyStr.split "." bad) -> PyStr.int max_str_digits c = None ->
  exists (newest : string) (d' : PyDict.dict json) (out : list event),
    run max_str_digits [script; version] now (Document (JObj d)) =
    (Ok tt, World (Document (JObj d')) out) /\
    PyDict.get d' "latest" = Some (JStr newest) /\
    (newest = bad <->
     (forall v kv, In v before -> v <> version ->
                   numeric_tuple_key max_str_digits v kv ->
                   tuple_ltb [0; 0; 0]%Z kv = false) /\
     (forall v kv, In v after -> v <> version ->
                   numeric_tuple_key max_str_digits v kv ->
                   tuple_ltb kv [0; 0; 0]%Z = true)).
Proof.
  intros Hl Hr Hnd Hin Hkeys Hbne Hc Hfail.
  set (p := fun v => negb (String.eqb v version)).
  assert (Hkey : version_key max_str_digits bad = [0; 0; 0]%Z).
  { symmetry. apply numeric_tuple_key_unique. now apply KeyFallback with c. }
  assert (Hpb : p bad = true)
    by (unfold p; apply negb_true_iff; now apply String.eqb_neq).
  assert (Hrem : others (PyDict.keys r) version =
                 filter p before ++ bad :: filter p after).
  { unfold others. fold p. rewrite Hkeys, filter_app. simpl.
    now rewrite Hpb. }
  assert (Hndr : NoDup (others (PyDict.keys r) version))
    by (apply NoDup_filter; exact Hnd).
  assert (Hne : others (PyDict.keys r) version <> [])
    by (rewrite Hrem; intros E; symmetry in E;
        now apply app_cons_not_nil in E).
  apply dict_mem_in in Hin.
  pose proof (newest_last_greatest max_str_digits _ Hne) as Hg.
  set (newest := last _ _) in Hg.
  assert (Hmax : forall v, In v (others (PyDict.keys r) version) ->
                tuple_ltb (version_key max_str_digits newest)
                          (version_key max_str_digits v) = false).
  { intros v Hv.
    eapply last_greatest_max;
      [exact tuple_ltb_irrefl | exact tuple_ltb_trans | exact Hg | exact Hv]. }
  destruct Hg as (b' & a' & Hsplit & Hbefore & Hafter).
  assert (Hpin : forall l v, In v l -> v <> version -> In v (filter p l)).
  { intros l v Hv Hvne. apply filter_In. split; [exact Hv|].
    unfold p. apply negb_true_iff. now apply String.eqb_neq. }
  exists newest. eexists. eexists.
  split; [exact (run_new_latest _ script _ now _ _ Hr Hin Hl Hne)|].
  split; [rewrite written_latest; apply dict_get_set_same|].
  split.
  - (* chosen: the split at [bad] is the split at the new latest *)
    intros E. rewrite E in Hsplit, Hbefore, Hafter.
    rewrite Hsplit in Hndr.
    rewrite Hrem in Hsplit. symmetry in Hsplit.
    destruct (nodup_split_unique _ _ _ _ _ Hndr Hsplit) as [-> ->].
    split.
    + intros v kv Hv Hvne Hkv.
      rewrite (numeric_tuple_key_unique _ _ _ Hkv), <- Hkey.
      apply Hbefore. now apply Hpin.
    + intros v kv Hv Hvne Hkv.
      rewrite (numeric_tuple_key_unique _ _ _ Hkv), <- Hkey.
      apply Hafter. now apply Hpin.
  - intros [Hb Ha].
    destruct (string_dec newest bad) as [E | Hnb]; [exact E | exfalso].
    assert (Hnew : In newest (filter p before ++ bad :: filter p after)).
    { rewrite <- Hrem, Hsplit. apply in_or_app. right. now left. }
    apply in_app_or in Hnew.
    destruct Hnew as [Hnew | [Hnew | Hnew]]; [|congruence|].
    + (* the new latest stands before [bad], so [bad] is below it *)
      apply in_split in Hnew. destruct Hnew as (x1 & x2 & Hx).
      assert (Hsp : b' ++ newest :: a' =
                    x1 ++ newest :: (x2 ++ bad :: filter p after)).
      { rewrite <- Hsplit, Hrem, Hx, <- app_assoc. reflexivity. }
      rewrite Hsplit in Hndr.
      destruct (nodup_split_unique _ _ _ _ _ Hndr Hsp) as [_ ->].
      assert (Hlt : tuple_ltb (version_key max_str_digits bad)
                              (version_key max_str_digits newest) = true).
      { apply Hafter. apply in_or_app. right. now left. }
      rewrite Hkey in Hlt.
      assert (Hnin : In newest (filter p before))
        by (rewrite Hx; apply in_or_app; right; now left).
      apply filter_In in Hnin. destruct Hnin as [Hnin Hpn].
      unfold p in Hpn. apply negb_true_iff, String.eqb_neq in Hpn.
      rewrite (Hb newest _ Hnin Hpn (version_key_spec _ _)) in Hlt.
      discriminate.
    + (* the new latest stands after [bad], so it is below (0, 0, 0) *)
      apply filter_In in Hnew. destruct Hnew as [Hnin Hpn].
      unfold p in Hpn. apply negb_true_iff, String.eqb_neq in Hpn.
      pose proof (Ha newest _ Hnin Hpn (version_key_spec _ _)) as Hlt.
      assert (Hbin : In bad (others (PyDict.keys r) version))
        by (rewrite Hrem; apply in_or_app; right; now left).
      apply Hmax in Hbin. rewrite Hkey in Hbin. congruence.
Qed.

Lemma non_numeric_chosen_exactly_witness :
  exists (newest : string) (d' : PyDict.dict json) (out : list event),
    run 4300 ["unrelease-cli.py"; "2.0.0"]%string "2024-05-01T12:00:00Z"
        (Document (JObj tied_three_manifest)) =
    (Ok tt, World (Document (JObj d')) out) /\
    PyDict.get d' "latest" = Some (JStr newest) /\
    (newest = "abc"%string <->
     (forall v kv, In v ["0.0.0"; "2.0.0"]%string -> v <> "2.0.0"%string ->
                   numeric_tuple_key 4300 v kv ->
                   tuple_ltb [0; 0; 0]%Z kv = false) /\
     (forall v kv, In v ["0.0"]%string -> v <> "2.0.0"%string ->
                   numeric_tuple_key 4300 v kv ->
                   tuple_ltb kv [0; 0; 0]%Z = true)).
Proof.
  refine (non_numeric_chosen_exactly 4300 "unrelease-cli.py" "2.0.0"
            "2024-05-01T12:00:00Z" tied_three_manifest tied_three_releases
            "abc" "abc" ["0.0.0"; "2.0.0"]%string ["0.0"]%string
            eq_refl eq_refl _ _ eq_refl _ _ eq_refl).
  - repeat constructor; simpl; intuition discriminate.
  - simpl. auto.
  - discriminate.
  - simpl. auto.
Defined.
